(** * Billboard Detection AI: the client-side image and analysis lifecycle

    A shallow embedding of [static/script.js] (class [BillboardAI]): the
    persistence adapter ([loadUserData], [loadSettings], [saveSettings],
    [saveAnalysisHistory]), file validation ([validateFiles]), the analysis
    lifecycle ([analyzeImage], [addToHistory]) and the history aggregates
    ([updateStats], [filterHistory], [exportToCSV]).

    Conventions of the embedding.
    - A JavaScript string is a [string]: a sequence of code units below 256
      (the Latin-1 part of UTF-16).
    - Integral JavaScript numbers are [Z] ([N] for byte sizes).  The two
      [Math.random()] draws of [analyzeImage] are rationals of [[0,1)] and
      the arithmetic on them is exact; rounding to the nearest double is
      monotone and 80 and 100 are doubles, so the bounds shown for the exact
      value hold for the rounded one too.
    - The application object is an explicit [State]; every method takes the
      state and returns the next one.  The clock, the generated id and the
      content of a file are arguments of the method that reads them.
    - Objects that are shared by reference (an image data object held both by
      [uploadedImages] and by a suspended [analyzeImage], a gallery element
      held both by the document and by that call) live in a store addressed
      by their id, next to the set of ids currently attached; generated ids
      are taken to be distinct.
    - [analyzeImage] is asynchronous: the model has the part of a call up to
      its [await] and the part after it as two functions, so that other
      events may run in between.
    - The page is the one of the application: the toast container, the stat
      counters, the history table and the image gallery, which the methods
      look up by id, are there.  A call of [showToast] is recorded with its
      message and type. *)

From Stdlib Require Import ZArith QArith Qround Lia Lqa Ascii String.
From stdpp Require Import base option list gmap strings pretty.

Local Open Scope string_scope.
Local Open Scope Z_scope.
Local Open Scope list_scope.

#[local] Set Warnings "-register-all".

(** ** JavaScript string primitives *)

Module JS.

(** Code unit of a character. *)
Definition code (c : ascii) : N := N_of_ascii c.

(** White space of [String.prototype.trim] among the code units below 256:
    TAB, LF, VT, FF, CR, SPACE and NO-BREAK SPACE. *)
Definition isWhiteSpace (c : ascii) : bool :=
  let n := code c in
  (((9 <=? n) && (n <=? 13)) || (n =? 32) || (n =? 160))%N.

Fixpoint trimStart (s : string) : string :=
  match s with
  | String c s' => if isWhiteSpace c then trimStart s' else s
  | EmptyString => EmptyString
  end.

(** [trimEnd] by recursion from the right: a white-space character is
    dropped when everything after it has been dropped. *)
Fixpoint trimEnd (s : string) : string :=
  match s with
  | EmptyString => EmptyString
  | String c s' =>
      match trimEnd s' with
      | EmptyString => if isWhiteSpace c then EmptyString else String c EmptyString
      | t => String c t
      end
  end.

Definition trim (s : string) : string := trimEnd (trimStart s).

(** [String.prototype.toLowerCase] on code units below 256: A-Z, and the
    Latin-1 capitals U+00C0..U+00DE except the multiplication sign U+00D7,
    move up by 32. *)
Definition lowerChar (c : ascii) : ascii :=
  let n := code c in
  if (((65 <=? n) && (n <=? 90)) || ((192 <=? n) && (n <=? 222) && negb (n =? 215)))%N
  then ascii_of_N (n + 32) else c.

Fixpoint toLowerCase (s : string) : string :=
  match s with
  | EmptyString => EmptyString
  | String c s' => String (lowerChar c) (toLowerCase s')
  end.

(** [s.startsWith(t)]. *)
Fixpoint startsWith (s t : string) : bool :=
  match t, s with
  | EmptyString, _ => true
  | String _ _, EmptyString => false
  | String b t', String a s' => if decide (a = b) then startsWith s' t' else false
  end.

(** [s.includes(t)]: [t] occurs in [s] at some position. *)
Fixpoint includes (s t : string) : bool :=
  startsWith s t ||
  match s with
  | EmptyString => false
  | String _ s' => includes s' t
  end.

(** [s.replace(/c/g, by)]: every occurrence of the character [c] is
    replaced by [by]. *)
Fixpoint replaceAll (c : ascii) (by_ : string) (s : string) : string :=
  match s with
  | EmptyString => EmptyString
  | String a s' =>
      if decide (a = c) then by_ +:+ replaceAll c by_ s'
      else String a (replaceAll c by_ s')
  end.

(** [parts.join(sep)]. *)
Fixpoint join (sep : string) (parts : list string) : string :=
  match parts with
  | [] => EmptyString
  | [p] => p
  | p :: rest => p +:+ sep +:+ join sep rest
  end.

(** [Array.prototype.includes] on an array of strings. *)
Definition arrayIncludes (xs : list string) (x : string) : bool :=
  bool_decide (x ∈ xs).

(** [x.toFixed(1)] for [x >= 0]: the integer [n] for which [n / 10 - x] is
    closest to zero, the larger one on a tie, written with one fractional
    digit.  [toFixed1_tenths] is that [n]. *)
Definition toFixed1_tenths (x : Q) : Z := Qfloor (x * 10 + (1 # 2))%Q.

Definition decimal1 (n : Z) : string :=
  pretty (n / 10) +:+ "." +:+ pretty (n mod 10).

Definition toFixed1 (x : Q) : string := decimal1 (toFixed1_tenths x).

End JS.

(** ** Data model *)

Inductive Status := Pending | Analyzing | Authorized | Unauthorized | Error.

#[global] Instance Status_eq_dec : EqDecision Status.
Proof. solve_decision. Defined.

(** The status as the string the source stores. *)
Definition status_str (st : Status) : string :=
  match st with
  | Pending => "pending"
  | Analyzing => "analyzing"
  | Authorized => "authorized"
  | Unauthorized => "unauthorized"
  | Error => "error"
  end.

(** [this.settings]. *)
Record Settings := mkSettings {
  theme : string;
  notifications : bool;
  maxFileSize : Z;
  autoAnalyze : bool
}.

(** The settings literal of the constructor. *)
Definition defaultSettings : Settings :=
  {| theme := "light"; notifications := true; maxFileSize := 10; autoAnalyze := false |}.

(** A file handle of the picker or of a drop: [name], [size], [type]. *)
Record File := mkFile {
  file_name : string;
  file_size : N;
  file_type : string
}.

(** An image data object of [addImageToGallery]; [confidence] and
    [analyzedAt] are undefined until an analysis completes. *)
Record ImageData := mkImageData {
  img_id : string;
  img_name : string;
  img_url : string;
  img_status : Status;
  img_uploadTime : string;
  img_size : N;
  img_confidence : option string;
  img_analyzedAt : option string
}.

(** A history item of [addToHistory]. *)
Record HistoryItem := mkHistoryItem {
  h_id : string;
  h_name : string;
  h_status : Status;
  h_confidence : option string;
  h_date : option string;
  h_size : N
}.

(** The analyze button of a gallery item. *)
Record AnalyzeBtn := mkAnalyzeBtn {
  btn_disabled : bool;
  btn_spinner : bool   (* innerHTML is the spinner with "Analyzing..." *)
}.

(** A gallery item element of [renderImageItem]: the classes [analyzing] and
    [analyzed], the analyze button if it is still there, and the
    [.image-status] child if there is one. *)
Record ImageElement := mkImageElement {
  el_analyzing : bool;
  el_analyzed : bool;
  el_analyzeBtn : option AnalyzeBtn;
  el_status : option Status
}.

Inductive ToastType := ToastSuccess | ToastError | ToastWarning | ToastInfo.

(** A call [showToast(message, type)]. *)
Record Toast := mkToast {
  toast_message : string;
  toast_type : ToastType
}.

(** The three counters of [updateStats]. *)
Record Stats := mkStats {
  total : nat;
  authorizedCount : nat;
  unauthorizedCount : nat
}.

(** Values of JSON, for [JSON.parse].  Numbers are the integral ones. *)
Inductive JVal :=
| JNull
| JBool (b : bool)
| JNum (n : Z)
| JStr (s : string)
| JArr (xs : list JVal)
| JObj (props : list (string * JVal)).

(** The application: the fields of [BillboardAI] and the parts of the page
    and of the browser it acts on. *)
Record State := mkState {
  currentUser : JVal;                           (* null until a user is loaded *)
  settings : Settings;
  analysisHistory : list HistoryItem;          (* newest first *)
  imageObjects : gmap string ImageData;         (* image data objects, by id *)
  uploadedImages : gset string;                 (* keys of state.uploadedImages *)
  elementObjects : gmap string ImageElement;    (* gallery item elements, by id *)
  gallery : gset string;                        (* ids of the elements in the document *)
  localStorage : gmap string string;
  toasts : list Toast;                          (* calls of showToast, oldest first *)
  statCounters : Stats;                         (* targets of the stat counters *)
  historyRows : list HistoryItem                (* rows of the history table *)
}.

(** [this.state.uploadedImages.get(imageId)]. *)
Definition uploadedImages_get (s : State) (imageId : string) : option ImageData :=
  if decide (imageId ∈ uploadedImages s) then imageObjects s !! imageId else None.

(** [document.getElementById(imageId)]. *)
Definition getElementById (s : State) (imageId : string) : option ImageElement :=
  if decide (imageId ∈ gallery s) then elementObjects s !! imageId else None.

(** Assignments to one field of the state. *)
Definition set_currentUser (v : JVal) (s : State) : State :=
  mkState v (settings s) (analysisHistory s) (imageObjects s) (uploadedImages s)
    (elementObjects s) (gallery s) (localStorage s) (toasts s) (statCounters s)
    (historyRows s).
Definition set_settings (v : Settings) (s : State) : State :=
  mkState (currentUser s) v (analysisHistory s) (imageObjects s) (uploadedImages s)
    (elementObjects s) (gallery s) (localStorage s) (toasts s) (statCounters s)
    (historyRows s).
Definition set_analysisHistory (v : list HistoryItem) (s : State) : State :=
  mkState (currentUser s) (settings s) v (imageObjects s) (uploadedImages s)
    (elementObjects s) (gallery s) (localStorage s) (toasts s) (statCounters s)
    (historyRows s).
Definition set_imageObjects (v : gmap string ImageData) (s : State) : State :=
  mkState (currentUser s) (settings s) (analysisHistory s) v (uploadedImages s)
    (elementObjects s) (gallery s) (localStorage s) (toasts s) (statCounters s)
    (historyRows s).
Definition set_uploadedImages (v : gset string) (s : State) : State :=
  mkState (currentUser s) (settings s) (analysisHistory s) (imageObjects s) v
    (elementObjects s) (gallery s) (localStorage s) (toasts s) (statCounters s)
    (historyRows s).
Definition set_elementObjects (v : gmap string ImageElement) (s : State) : State :=
  mkState (currentUser s) (settings s) (analysisHistory s) (imageObjects s)
    (uploadedImages s) v (gallery s) (localStorage s) (toasts s) (statCounters s)
    (historyRows s).
Definition set_gallery (v : gset string) (s : State) : State :=
  mkState (currentUser s) (settings s) (analysisHistory s) (imageObjects s)
    (uploadedImages s) (elementObjects s) v (localStorage s) (toasts s)
    (statCounters s) (historyRows s).
Definition set_localStorage (v : gmap string string) (s : State) : State :=
  mkState (currentUser s) (settings s) (analysisHistory s) (imageObjects s)
    (uploadedImages s) (elementObjects s) (gallery s) v (toasts s) (statCounters s)
    (historyRows s).
Definition set_toasts (v : list Toast) (s : State) : State :=
  mkState (currentUser s) (settings s) (analysisHistory s) (imageObjects s)
    (uploadedImages s) (elementObjects s) (gallery s) (localStorage s) v
    (statCounters s) (historyRows s).
Definition set_statCounters (v : Stats) (s : State) : State :=
  mkState (currentUser s) (settings s) (analysisHistory s) (imageObjects s)
    (uploadedImages s) (elementObjects s) (gallery s) (localStorage s) (toasts s) v
    (historyRows s).
Definition set_historyRows (v : list HistoryItem) (s : State) : State :=
  mkState (currentUser s) (settings s) (analysisHistory s) (imageObjects s)
    (uploadedImages s) (elementObjects s) (gallery s) (localStorage s) (toasts s)
    (statCounters s) v.

(** The state the constructor builds, over the browser's store. *)
Definition initialState (store : gmap string string) : State :=
  {| currentUser := JNull; settings := defaultSettings; analysisHistory := [];
     imageObjects := ∅; uploadedImages := ∅; elementObjects := ∅; gallery := ∅;
     localStorage := store; toasts := []; statCounters := mkStats 0 0 0;
     historyRows := [] |}.

(** [showToast(message, type)]: the call is recorded. *)
Definition showToast (s : State) (message : string) (type : ToastType) : State :=
  set_toasts (toasts s ++ [mkToast message type]) s.

(** ** Validation *)

Definition allowedTypes : list string :=
  ["image/jpeg"; "image/jpg"; "image/png"; "image/gif"; "image/webp"].

(** Bytes of [this.settings.maxFileSize] megabytes. *)
Definition maxSize (s : State) : Z := maxFileSize (settings s) * 1024 * 1024.

(** The callback of [files.forEach] in [validateFiles]: the accumulator is
    [validFiles] and the state (for the toasts). *)
Definition validateFile (maxSize : Z) (acc : list File * State) (file : File)
  : list File * State :=
  let '(validFiles, s) := acc in
  if negb (JS.arrayIncludes allowedTypes (file_type file)) then
    (validFiles, showToast s (file_name file +:+ ": Unsupported file type") ToastError)
  else if Z.of_N (file_size file) >? maxSize then
    (validFiles,
     showToast s (file_name file +:+ ": File too large (max "
                  +:+ pretty (maxFileSize (settings s)) +:+ "MB)") ToastError)
  else (validFiles ++ [file], s).

Definition validateFiles (s : State) (files : list File) : list File * State :=
  fold_left (validateFile (maxSize s)) files ([], s).

(** ** JSON text *)

Module Json.

Definition hexDigit (n : N) : ascii :=
  if (n <? 10)%N then ascii_of_N (48 + n) else ascii_of_N (87 + n).

(** One character of a string, as [JSON.stringify] writes it. *)
Definition escapeChar (c : ascii) : string :=
  let n := JS.code c in
  if (n =? 34)%N then String (ascii_of_N 92) (String c EmptyString) else
  if (n =? 92)%N then "\\" else
  if (n =? 8)%N then "\b" else
  if (n =? 9)%N then "\t" else
  if (n =? 10)%N then "\n" else
  if (n =? 12)%N then "\f" else
  if (n =? 13)%N then "\r" else
  if (n <? 32)%N then
    "\u00" +:+ String (hexDigit (n / 16)) (String (hexDigit (n mod 16)) EmptyString)
  else String c EmptyString.

Fixpoint escape (s : string) : string :=
  match s with
  | EmptyString => EmptyString
  | String c s' => escapeChar c +:+ escape s'
  end.

(** The double quote. *)
Definition DQ : string := String (ascii_of_N 34) EmptyString.

Definition quote (s : string) : string := DQ +:+ escape s +:+ DQ.

(** A property [key: text] of an object literal. *)
Definition prop (key text : string) : string := quote key +:+ ":" +:+ text.

Definition bool_text (b : bool) : string := if b then "true" else "false".

(** [JSON.stringify(this.settings)]. *)
Definition stringifySettings (st : Settings) : string :=
  "{" +:+ prop "theme" (quote (theme st))
  +:+ "," +:+ prop "notifications" (bool_text (notifications st))
  +:+ "," +:+ prop "maxFileSize" (pretty (maxFileSize st))
  +:+ "," +:+ prop "autoAnalyze" (bool_text (autoAnalyze st)) +:+ "}".

(** A property whose value is undefined is left out. *)
Definition optionalProp (key : string) (v : option string) : string :=
  match v with
  | Some x => "," +:+ prop key (quote x)
  | None => EmptyString
  end.

Definition stringifyHistoryItem (item : HistoryItem) : string :=
  "{" +:+ prop "id" (quote (h_id item))
  +:+ "," +:+ prop "name" (quote (h_name item))
  +:+ "," +:+ prop "status" (quote (status_str (h_status item)))
  +:+ optionalProp "confidence" (h_confidence item)
  +:+ optionalProp "date" (h_date item)
  +:+ "," +:+ prop "size" (pretty (h_size item)) +:+ "}".

(** [JSON.stringify(this.analysisHistory)]. *)
Definition stringifyHistory (h : list HistoryItem) : string :=
  "[" +:+ JS.join "," (map stringifyHistoryItem h) +:+ "]".

(** *** A reader of JSON text

    [parse] reads the JSON texts whose numbers are integers: objects,
    arrays, strings with the escapes of [escapeChar] and the other two-
    character escapes, [true], [false], [null].  It is the instance of
    [JSON.parse] used to run the persistence adapter on concrete stores. *)

Definition isWs (c : ascii) : bool :=
  let n := JS.code c in ((n =? 32) || (n =? 9) || (n =? 10) || (n =? 13))%N.

Fixpoint skipWs (s : string) : string :=
  match s with
  | String c s' => if isWs c then skipWs s' else s
  | EmptyString => EmptyString
  end.

Definition isDigit (c : ascii) : bool :=
  let n := JS.code c in ((48 <=? n) && (n <=? 57))%N.

Definition hexValue (c : ascii) : option N :=
  let n := JS.code c in
  if ((48 <=? n) && (n <=? 57))%N then Some (n - 48)%N
  else if ((97 <=? n) && (n <=? 102))%N then Some (n - 87)%N
  else if ((65 <=? n) && (n <=? 70))%N then Some (n - 55)%N
  else None.

(** The character of a two-character escape. *)
Definition unescape (e : ascii) : option ascii :=
  let n := JS.code e in
  if ((n =? 34) || (n =? 92) || (n =? 47))%N then Some e else
  if (n =? 98)%N then Some (ascii_of_N 8) else
  if (n =? 102)%N then Some (ascii_of_N 12) else
  if (n =? 110)%N then Some (ascii_of_N 10) else
  if (n =? 114)%N then Some (ascii_of_N 13) else
  if (n =? 116)%N then Some (ascii_of_N 9) else None.

Definition consChar (c : ascii) (r : option (string * string)) : option (string * string) :=
  match r with
  | Some (t, rest) => Some (String c t, rest)
  | None => None
  end.

(** The characters of a string up to its closing quote, and the text after
    it. *)
Fixpoint readString (s : string) : option (string * string) :=
  match s with
  | EmptyString => None
  | String c s' =>
      if (JS.code c =? 34)%N then Some (EmptyString, s')
      else if (JS.code c <? 32)%N then None
      else if (JS.code c =? 92)%N then
        match s' with
        | String e s'' =>
            if (JS.code e =? 117)%N then
              match s'' with
              | String h1 (String h2 (String h3 (String h4 s4))) =>
                  match hexValue h1, hexValue h2, hexValue h3, hexValue h4 with
                  | Some 0%N, Some 0%N, Some a, Some b =>
                      consChar (ascii_of_N (16 * a + b)) (readString s4)
                  | _, _, _, _ => None
                  end
              | _ => None
              end
            else
              match unescape e with
              | Some ch => consChar ch (readString s'')
              | None => None
              end
        | EmptyString => None
        end
      else consChar c (readString s')
  end.

(** The value of a run of digits after [acc], and the text after it. *)
Fixpoint readDigits (acc : Z) (s : string) : Z * string :=
  match s with
  | String c s' =>
      if isDigit c then readDigits (10 * acc + Z.of_N (JS.code c - 48)) s'
      else (acc, s)
  | EmptyString => (acc, s)
  end.

(** A number: [0] or a run of digits without a leading zero; a fraction or
    an exponent after it is not read. *)
Definition readNatural (s : string) : option (Z * string) :=
  match s with
  | String c s' =>
      if isDigit c then
        let '(n, rest) := if (JS.code c =? 48)%N then (0, s') else readDigits 0 s in
        match rest with
        | String d _ =>
            if isDigit d || (JS.code d =? 46)%N || (JS.code d =? 101)%N
               || (JS.code d =? 69)%N
            then None else Some (n, rest)
        | EmptyString => Some (n, rest)
        end
      else None
  | EmptyString => None
  end.

Definition readLiteral (lit : string) (v : JVal) (s : string) : option (JVal * string) :=
  if JS.startsWith s lit then Some (v, String.substring (String.length lit) (String.length s - String.length lit) s)
  else None.

Fixpoint readValue (fuel : nat) (s : string) {struct fuel} : option (JVal * string) :=
  match fuel with
  | O => None
  | S fuel =>
      match skipWs s with
      | EmptyString => None
      | String c s' =>
          let n := JS.code c in
          if (n =? 34)%N then
            match readString s' with
            | Some (t, rest) => Some (JStr t, rest)
            | None => None
            end
          else if (n =? 91)%N then
            match skipWs s' with
            | String c1 s1 =>
                if (JS.code c1 =? 93)%N then Some (JArr [], s1)
                else match readElements fuel (String c1 s1) with
                     | Some (xs, rest) => Some (JArr xs, rest)
                     | None => None
                     end
            | EmptyString => None
            end
          else if (n =? 123)%N then
            match skipWs s' with
            | String c1 s1 =>
                if (JS.code c1 =? 125)%N then Some (JObj [], s1)
                else match readMembers fuel (String c1 s1) with
                     | Some (ps, rest) => Some (JObj ps, rest)
                     | None => None
                     end
            | EmptyString => None
            end
          else if (n =? 45)%N then
            match readNatural s' with
            | Some (k, rest) => Some (JNum (- k), rest)
            | None => None
            end
          else if isDigit c then
            match readNatural (String c s') with
            | Some (k, rest) => Some (JNum k, rest)
            | None => None
            end
          else if (n =? 116)%N then readLiteral "true" (JBool true) (String c s')
          else if (n =? 102)%N then readLiteral "false" (JBool false) (String c s')
          else if (n =? 110)%N then readLiteral "null" JNull (String c s')
          else None
      end
  end
with readElements (fuel : nat) (s : string) {struct fuel} : option (list JVal * string) :=
  match fuel with
  | O => None
  | S fuel =>
      match readValue fuel s with
      | Some (v, rest) =>
          match skipWs rest with
          | String c rest' =>
              if (JS.code c =? 93)%N then Some ([v], rest')
              else if (JS.code c =? 44)%N then
                match readElements fuel rest' with
                | Some (vs, rest'') => Some (v :: vs, rest'')
                | None => None
                end
              else None
          | EmptyString => None
          end
      | None => None
      end
  end
with readMembers (fuel : nat) (s : string) {struct fuel}
  : option (list (string * JVal) * string) :=
  match fuel with
  | O => None
  | S fuel =>
      match skipWs s with
      | String q s1 =>
          if (JS.code q =? 34)%N then
            match readString s1 with
            | Some (key, rest) =>
                match skipWs rest with
                | String colon rest1 =>
                    if (JS.code colon =? 58)%N then
                      match readValue fuel rest1 with
                      | Some (v, rest2) =>
                          match skipWs rest2 with
                          | String c rest3 =>
                              if (JS.code c =? 125)%N then Some ([(key, v)], rest3)
                              else if (JS.code c =? 44)%N then
                                match readMembers fuel rest3 with
                                | Some (ps, rest4) => Some ((key, v) :: ps, rest4)
                                | None => None
                                end
                              else None
                          | EmptyString => None
                          end
                      | None => None
                      end
                    else None
                | EmptyString => None
                end
            | None => None
            end
          else None
      | EmptyString => None
      end
  end.

(** The whole text is one value; [None] stands for the SyntaxError. *)
Definition parse (s : string) : option JVal :=
  match readValue (2 * String.length s + 2) s with
  | Some (v, rest) => if decide (skipWs rest = EmptyString) then Some v else None
  | None => None
  end.

End Json.

(** ** The application *)

Section Browser.

(** [JSON.parse] of the browser; [None] when it throws. *)
Variable JSON_parse : string -> option JVal.

(** Whether the browser takes a store of this content; [setItem] throws
    (quota exceeded) when it does not. *)
Variable quota_ok : gmap string string -> bool.

Definition setItem (store : gmap string string) (key value : string)
  : option (gmap string string) :=
  if quota_ok (<[key := value]> store) then Some (<[key := value]> store) else None.

(** *** Persistence adapter *)

(** [loadUserData]: a record that does not parse is removed. *)
Definition loadUserData (s : State) : State :=
  match localStorage s !! "currentUser" with
  | Some userData =>
      if decide (userData = EmptyString) then s
      else match JSON_parse userData with
           | Some user => set_currentUser user s
           | None => set_localStorage (delete "currentUser" (localStorage s)) s
           end
  | None => s
  end.

(** The value of the property [key] of a parsed object: the last one
    written wins. *)
Fixpoint getProp (key : string) (props : list (string * JVal)) : option JVal :=
  match props with
  | [] => None
  | (k, v) :: rest =>
      match getProp key rest with
      | Some w => Some w
      | None => if decide (k = key) then Some v else None
      end
  end.

(** [{ ...cur, ...parsed }] on the four properties of the settings: a
    property of the parsed object replaces the one of [cur].  The record
    holds each property at the type the application writes it with; a
    parsed property of another type has no place in it and the field is
    left as it is.  Values that are not objects have none of the four
    properties. *)
Definition spreadSettings (cur : Settings) (parsed : JVal) : Settings :=
  match parsed with
  | JObj props =>
      {| theme := match getProp "theme" props with
                  | Some (JStr t) => t | _ => theme cur end;
         notifications := match getProp "notifications" props with
                          | Some (JBool b) => b | _ => notifications cur end;
         maxFileSize := match getProp "maxFileSize" props with
                        | Some (JNum n) => n | _ => maxFileSize cur end;
         autoAnalyze := match getProp "autoAnalyze" props with
                        | Some (JBool b) => b | _ => autoAnalyze cur end |}
  | _ => cur
  end.

(** [loadSettings]: the handler of a record that does not parse only
    warns on the console. *)
Definition loadSettings (s : State) : State :=
  match localStorage s !! "billboardAI_settings" with
  | Some text =>
      if decide (text = EmptyString) then s
      else match JSON_parse text with
           | Some parsed => set_settings (spreadSettings (settings s) parsed) s
           | None => s
           end
  | None => s
  end.

Definition saveSettings (s : State) : State :=
  match setItem (localStorage s) "billboardAI_settings"
                (Json.stringifySettings (settings s)) with
  | Some store => showToast (set_localStorage store s) "Settings saved successfully!" ToastSuccess
  | None => showToast s "Failed to save settings" ToastError
  end.

Definition saveAnalysisHistory (s : State) : State :=
  match setItem (localStorage s) "billboardAI_history"
                (Json.stringifyHistory (analysisHistory s)) with
  | Some store => set_localStorage store s
  | None => s
  end.

(** *** History and statistics *)

(** The values [updateStats] computes and sends to the three counters. *)
Definition stats (history : list HistoryItem) : Stats :=
  {| total := length history;
     authorizedCount := length (filter (λ item, h_status item = Authorized) history);
     unauthorizedCount := length (filter (λ item, h_status item = Unauthorized) history) |}.

Definition updateStats (s : State) : State :=
  set_statCounters (stats (analysisHistory s)) s.

(** [updateHistory]: the table shows the whole history. *)
Definition updateHistory (s : State) : State :=
  set_historyRows (analysisHistory s) s.

(** The test of the filter of [filterHistory]. *)
Definition matchesTerm (searchTerm : string) (item : HistoryItem) : bool :=
  JS.includes (JS.toLowerCase (h_name item)) (JS.toLowerCase searchTerm).

(** [filterHistory(searchTerm)]: the rows the table shows afterwards. *)
Definition filterHistory (s : State) (searchTerm : string) : State :=
  if decide (JS.trim searchTerm = EmptyString) then updateHistory s
  else set_historyRows (filter (λ item, matchesTerm searchTerm item = true)
                               (analysisHistory s)) s.

(** [addToHistory(imageData)]. *)
Definition addToHistory (s : State) (imageData : ImageData) : State :=
  let historyItem :=
    {| h_id := img_id imageData;
       h_name := img_name imageData;
       h_status := img_status imageData;
       h_confidence := img_confidence imageData;
       h_date := img_analyzedAt imageData;
       h_size := img_size imageData |} in
  updateHistory
    (saveAnalysisHistory (set_analysisHistory (historyItem :: analysisHistory s) s)).

(** *** CSV export *)

Definition csvHeaders : list string :=
  ["Image Name"; "Status"; "Confidence (%)"; "Date"; "File Size (bytes)"].

(** An element of an array in [join]: undefined gives the empty text. *)
Definition joinText (v : option string) : string := default EmptyString v.

(** A value in a template literal: undefined gives [undefined]. *)
Definition templateText (v : option string) : string := default "undefined" v.

(** The five fields of the line of one item. *)
Definition csvFields (item : HistoryItem) : list string :=
  [ Json.DQ +:+ JS.replaceAll (ascii_of_N 34) (Json.DQ +:+ Json.DQ) (h_name item) +:+ Json.DQ;
    status_str (h_status item);
    joinText (h_confidence item);
    Json.DQ +:+ templateText (h_date item) +:+ Json.DQ;
    pretty (h_size item) ].

Definition csvContent (history : list HistoryItem) : string :=
  JS.join (String (ascii_of_N 10) EmptyString)
    (JS.join "," csvHeaders :: map (λ item, JS.join "," (csvFields item)) history).

(** [isoString.split('T')[0]]. *)
Fixpoint beforeT (iso : string) : string :=
  match iso with
  | EmptyString => EmptyString
  | String c rest => if (JS.code c =? 84)%N then EmptyString else String c (beforeT rest)
  end.

(** A file offered for download. *)
Record Download := mkDownload { download_name : string; download_text : string }.

(** [exportToCSV], at the time [now] (an ISO date-time). *)
Definition exportToCSV (s : State) (now : string) : option Download * State :=
  match analysisHistory s with
  | [] => (None, showToast s "No data to export" ToastWarning)
  | _ :: _ =>
      (Some {| download_name := "billboard_analysis_" +:+ beforeT now +:+ ".csv";
               download_text := csvContent (analysisHistory s) |},
       showToast s "History exported successfully!" ToastSuccess)
  end.

(** *** Gallery *)

(** [addImageToGallery(file)] once the file is read: [imageId] is the id
    generated, [imageUrl] the data URL, [now] the upload time.  The element
    is the one [renderImageItem] builds when the name of the file, the id
    and the URL have no markup in them: the template is filled in with
    them as they are, and markup in them changes what the element holds. *)
Definition addImageToGallery (s : State) (file : File) (imageId imageUrl now : string)
  : State :=
  let imageData :=
    {| img_id := imageId; img_name := file_name file; img_url := imageUrl;
       img_status := Pending; img_uploadTime := now; img_size := file_size file;
       img_confidence := None; img_analyzedAt := None |} in
  let imageElement :=
    {| el_analyzing := false; el_analyzed := false;
       el_analyzeBtn := Some (mkAnalyzeBtn false false); el_status := None |} in
  set_gallery ({[imageId]} ∪ gallery s)
    (set_elementObjects (<[imageId := imageElement]> (elementObjects s))
      (set_uploadedImages ({[imageId]} ∪ uploadedImages s)
        (set_imageObjects (<[imageId := imageData]> (imageObjects s)) s))).

(** The timeout of [removeImage(imageId)]: the element leaves the document
    and the key leaves [uploadedImages]; the objects stay with whoever
    still holds them. *)
Definition removeImage_timeout (s : State) (imageId : string) : State :=
  set_uploadedImages (uploadedImages s ∖ {[imageId]})
    (set_gallery (gallery s ∖ {[imageId]}) s).

(** [removeImage(imageId)]: the timeout is set when the element is in the
    document. *)
Definition removeImage (s : State) (imageId : string) : option string :=
  match getElementById s imageId with
  | Some _ => Some imageId
  | None => None
  end.

(** *** Analysis lifecycle *)

(** [updateImageStatus(imageElement, status)]. *)
Definition updateImageStatus (imageElement : ImageElement) (status : Status)
  : ImageElement :=
  {| el_analyzing := el_analyzing imageElement;
     el_analyzed := el_analyzed imageElement;
     el_analyzeBtn := el_analyzeBtn imageElement;
     el_status := if decide (status = Pending) then None else Some status |}.

(** What a call of [analyzeImage] suspended at [await] holds on to: the
    image data object and the element (both by id), and whether
    [querySelector('.analyze-btn')] found the button. *)
Record Suspended := mkSuspended {
  k_imageId : string;
  k_analyzeBtn : bool
}.

(** A call of [analyzeImage] up to its first suspension. *)
Inductive Call :=
| Returned (s : State)
| Awaiting (s : State) (k : Suspended).

Definition stateOf (c : Call) : State :=
  match c with Returned s => s | Awaiting s _ => s end.

(** [analyzeImage(imageId)] up to [await this.performAnalysis(imageData)]. *)
Definition analyzeImage (s : State) (imageId : string) : Call :=
  match uploadedImages_get s imageId with
  | None => Returned s
  | Some imageData =>
      if decide (img_status imageData = Analyzing) then Returned s
      else
        match getElementById s imageId with
        | None => Returned s
        | Some imageElement =>
            let imageData' :=
              {| img_id := img_id imageData; img_name := img_name imageData;
                 img_url := img_url imageData; img_status := Analyzing;
                 img_uploadTime := img_uploadTime imageData;
                 img_size := img_size imageData;
                 img_confidence := img_confidence imageData;
                 img_analyzedAt := img_analyzedAt imageData |} in
            let analyzeBtn := el_analyzeBtn imageElement in
            let imageElement' :=
              updateImageStatus
                {| el_analyzing := true;
                   el_analyzed := el_analyzed imageElement;
                   el_analyzeBtn :=
                     match analyzeBtn with
                     | Some _ => Some (mkAnalyzeBtn true true)
                     | None => None
                     end;
                   el_status := el_status imageElement |}
                Analyzing in
            Awaiting
              (set_elementObjects (<[imageId := imageElement']> (elementObjects s))
                (set_imageObjects (<[imageId := imageData']> (imageObjects s)) s))
              {| k_imageId := imageId;
                 k_analyzeBtn := bool_decide (is_Some analyzeBtn) |}
        end
  end.

(** How the awaited promise settles. *)
Inductive Settled := Fulfilled | Rejected.

(** [performAnalysis] of this repository only waits: it always fulfils. *)
Definition performAnalysis (imageData : ImageData) : Settled := Fulfilled.

(** [Math.random() > 0.5 ? 'authorized' : 'unauthorized']. *)
Definition verdict (random : Q) : Status :=
  if Qlt_le_dec (1 # 2) random then Authorized else Unauthorized.

(** [(Math.random() * 20 + 80).toFixed(1)].  The draw is a rational and the
    arithmetic is exact, where the browser rounds to doubles. *)
Definition confidenceOf (random : Q) : string :=
  JS.toFixed1 (random * 20 + 80)%Q.

(** The rest of [analyzeImage] once the awaited promise has settled, run on
    the state of that moment: [random1] and [random2] are the two draws of
    [Math.random()], [now] is the time.  The objects a suspended call holds
    are in the store; for a store without them the state is returned as
    it is. *)
Definition analyzeImage_resume (s : State) (k : Suspended) (settled : Settled)
    (random1 random2 : Q) (now : string) : State :=
  match imageObjects s !! k_imageId k, elementObjects s !! k_imageId k with
  | Some imageData, Some imageElement =>
      match settled with
      | Fulfilled =>
          let result := verdict random1 in
          let confidence := confidenceOf random2 in
          let imageData' :=
            {| img_id := img_id imageData; img_name := img_name imageData;
               img_url := img_url imageData; img_status := result;
               img_uploadTime := img_uploadTime imageData;
               img_size := img_size imageData;
               img_confidence := Some confidence;
               img_analyzedAt := Some now |} in
          let imageElement' :=
            let e := updateImageStatus
                       {| el_analyzing := false; el_analyzed := true;
                          el_analyzeBtn := el_analyzeBtn imageElement;
                          el_status := el_status imageElement |} result in
            if k_analyzeBtn k
            then {| el_analyzing := el_analyzing e; el_analyzed := el_analyzed e;
                    el_analyzeBtn := None; el_status := el_status e |}
            else e in
          let s1 :=
            set_elementObjects (<[k_imageId k := imageElement']> (elementObjects s))
              (set_imageObjects (<[k_imageId k := imageData']> (imageObjects s)) s) in
          let s2 := addToHistory s1 imageData' in
          let s3 :=
            showToast s2
              ("Analysis complete: " +:+ status_str result +:+ " (" +:+ confidence
               +:+ "% confidence)") ToastSuccess in
          updateStats s3
      | Rejected =>
          let imageData' :=
            {| img_id := img_id imageData; img_name := img_name imageData;
               img_url := img_url imageData; img_status := Error;
               img_uploadTime := img_uploadTime imageData;
               img_size := img_size imageData;
               img_confidence := img_confidence imageData;
               img_analyzedAt := img_analyzedAt imageData |} in
          let imageElement' :=
            updateImageStatus
              {| el_analyzing := false; el_analyzed := el_analyzed imageElement;
                 el_analyzeBtn := el_analyzeBtn imageElement;
                 el_status := el_status imageElement |} Error in
          let s1 :=
            set_elementObjects (<[k_imageId k := imageElement']> (elementObjects s))
              (set_imageObjects (<[k_imageId k := imageData']> (imageObjects s)) s) in
          updateStats (showToast s1 "Analysis failed. Please try again." ToastError)
      end
  | _, _ => s
  end.

End Browser.

(** ** More of the application *)

(** *** Further primitives of JavaScript *)

Module Builtin.

(** The value of a character as a digit of the radix, if it is one. *)
Definition digitValue (radix : N) (c : ascii) : option N :=
  let n := JS.code c in
  let d :=
    if ((48 <=? n) && (n <=? 57))%N then Some (n - 48)%N
    else if ((97 <=? n) && (n <=? 122))%N then Some (n - 87)%N
    else if ((65 <=? n) && (n <=? 90))%N then Some (n - 55)%N
    else None in
  match d with
  | Some v => if (v <? radix)%N then Some v else None
  | None => None
  end.

(** The number written by the longest run of digits at the start of [s],
    after the digits already read ([seen] tells whether there were any);
    [None] when there is no digit at all. *)
Fixpoint readRadix (radix : N) (acc : N) (seen : bool) (s : string) : option N :=
  match s with
  | String c s' =>
      match digitValue radix c with
      | Some d => readRadix radix (radix * acc + d) true s'
      | None => if seen then Some acc else None
      end
  | EmptyString => if seen then Some acc else None
  end.

(** [parseInt(value)] without a radix; the argument is [None] for
    undefined, the result is [None] for NaN.  Leading white space is
    skipped, a sign is read, the prefix [0x] or [0X] selects radix 16, and
    the digits are read up to the first character that is not one.  The
    result is the integer the digits write; it is the number of the browser
    when it is below 2^53 in absolute value, beyond which the browser has
    the nearest double, or Infinity. *)
Definition parseInt (value : option string) : option Z :=
  let s := JS.trimStart (default "undefined" value) in
  let '(negative, s1) :=
    match s with
    | String c rest =>
        if (JS.code c =? 45)%N then (true, rest)
        else if (JS.code c =? 43)%N then (false, rest)
        else (false, s)
    | EmptyString => (false, s)
    end in
  let '(radix, s2) :=
    match s1 with
    | String z (String x rest) =>
        if ((JS.code z =? 48) && ((JS.code x =? 120) || (JS.code x =? 88)))%N
        then (16%N, rest) else (10%N, s1)
    | _ => (10%N, s1)
    end in
  match readRadix radix 0 false s2 with
  | Some n => Some (if negative then - Z.of_N n else Z.of_N n)
  | None => None
  end.

(** [text.substr(0, length)]: a negative length counts as 0. *)
Definition substr0 (text : string) (length : Z) : string :=
  String.substring 0 (Z.to_nat length) text.

(** Whether a value counts as true in a condition. *)
Definition truthy (v : JVal) : bool :=
  match v with
  | JNull => false
  | JBool b => b
  | JNum n => negb (n =? 0)
  | JStr s => negb (bool_decide (s = EmptyString))
  | JArr _ => true
  | JObj _ => true
  end.

(** [Math.min(q, 1)]. *)
Definition min1 (q : Q) : Q := if Qlt_le_dec q 1 then q else 1%Q.

End Builtin.

(** *** Utilities *)

(** [truncateText(text, maxLength)]. *)
Definition truncateText (text : string) (maxLength : Z) : string :=
  if Z.of_nat (String.length text) <=? maxLength then text
  else Builtin.substr0 text (maxLength - 3) +:+ "...".

(** [easeOutQuart(t)]: [--t] makes [t] one less before the products are
    taken.  The arithmetic is exact. *)
Definition easeOutQuart (t : Q) : Q :=
  let t' := (t - 1)%Q in (1 - t' * t' * t' * t')%Q.

(** The number [animateNumber(element, from, to)] writes in the frame drawn
    [elapsed] milliseconds after its start.  The arithmetic is exact, where
    the browser rounds to doubles. *)
Definition animateNumber_frame (from to : Z) (elapsed : Z) : Z :=
  let progress := Builtin.min1 (inject_Z elapsed / 1000)%Q in
  Qfloor (inject_Z from + inject_Z (to - from) * easeOutQuart progress)%Q.

(** Whether [animateNumber] asks for another frame after that one. *)
Definition animateNumber_continues (elapsed : Z) : bool :=
  if Qlt_le_dec (Builtin.min1 (inject_Z elapsed / 1000)%Q) 1 then true else false.

(** *** Session, settings form and stored history *)

(** The values of the preferences form; [None] when the element is not in
    the page. *)
Record PreferencesForm := mkPreferencesForm {
  themeSelect : option string;
  notificationsBox : option bool;
  maxFileSizeInput : option string;
  autoAnalyzeBox : option bool
}.

(** The status a stored text names. *)
Definition statusOfString (t : string) : option Status :=
  if decide (t = "pending") then Some Pending
  else if decide (t = "analyzing") then Some Analyzing
  else if decide (t = "authorized") then Some Authorized
  else if decide (t = "unauthorized") then Some Unauthorized
  else if decide (t = "error") then Some Error
  else None.

(** The value [JSON.parse] gives for the text of a history item. *)
Definition jvalOfHistoryItem (item : HistoryItem) : JVal :=
  JObj ([("id", JStr (h_id item)); ("name", JStr (h_name item));
         ("status", JStr (status_str (h_status item)))]
        ++ match h_confidence item with
           | Some c => [("confidence", JStr c)]
           | None => []
           end
        ++ match h_date item with
           | Some d => [("date", JStr d)]
           | None => []
           end
        ++ [("size", JNum (Z.of_N (h_size item)))]).

Definition jvalOfHistory (history : list HistoryItem) : JVal :=
  JArr (map jvalOfHistoryItem history).

(** The end of the properties of a stored item: the date if there is one,
    then the size. *)
Definition readDateSize (props : list (string * JVal)) : option (option string * N) :=
  match props with
  | [(k, JNum z)] =>
      if decide (k = "size") then if 0 <=? z then Some (None, Z.to_N z) else None
      else None
  | [(kd, JStr d); (k, JNum z)] =>
      if decide (kd = "date") then
        if decide (k = "size") then if 0 <=? z then Some (Some d, Z.to_N z) else None
        else None
      else None
  | _ => None
  end.

(** A parsed value read as a history item: an object with the properties
    [addToHistory] gives an item, in its order. *)
Definition historyItemOfJVal (v : JVal) : option HistoryItem :=
  match v with
  | JObj ((ki, JStr i) :: (kn, JStr n) :: (ks, JStr t) :: rest) =>
      if decide (ki = "id") then
        if decide (kn = "name") then
          if decide (ks = "status") then
            match statusOfString t with
            | Some st =>
                match rest with
                | (kc, JStr c) :: rest' =>
                    if decide (kc = "confidence") then
                      match readDateSize rest' with
                      | Some (d, sz) => Some (mkHistoryItem i n st (Some c) d sz)
                      | None => None
                      end
                    else
                      match readDateSize rest with
                      | Some (d, sz) => Some (mkHistoryItem i n st None d sz)
                      | None => None
                      end
                | _ =>
                    match readDateSize rest with
                    | Some (d, sz) => Some (mkHistoryItem i n st None d sz)
                    | None => None
                    end
                end
            | None => None
            end
          else None
        else None
      else None
  | _ => None
  end.

Fixpoint historyItemsOfJVals (vs : list JVal) : option (list HistoryItem) :=
  match vs with
  | [] => Some []
  | v :: rest =>
      match historyItemOfJVal v, historyItemsOfJVals rest with
      | Some item, Some items => Some (item :: items)
      | _, _ => None
      end
  end.

(** A parsed value read as a history: an array of items. *)
Definition historyOfJVal (v : JVal) : option (list HistoryItem) :=
  match v with
  | JArr vs => historyItemsOfJVals vs
  | _ => None
  end.

Section Session.

Variable JSON_parse : string -> option JVal.
Variable quota_ok : gmap string string -> bool.

(** [loadAnalysisHistory].  The history of the state is a list of history
    items: the result is [None] when the stored text parses to a value that
    is not such a list, which the state cannot hold.  A text that does not
    parse leaves the state as it is, and the record in the store. *)
Definition loadAnalysisHistory (s : State) : option State :=
  match localStorage s !! "billboardAI_history" with
  | Some text =>
      if decide (text = EmptyString) then Some s
      else match JSON_parse text with
           | Some parsed =>
               match historyOfJVal parsed with
               | Some history => Some (set_analysisHistory history s)
               | None => None
               end
           | None => Some s
           end
  | None => Some s
  end.

(** [handleSettingsSubmit(e)], with the values of the form. *)
Definition handleSettingsSubmit (s : State) (form : PreferencesForm) : State :=
  saveSettings quota_ok
    (set_settings
       {| theme := match themeSelect form with
                   | Some v => if decide (v = EmptyString) then "light" else v
                   | None => "light"
                   end;
          notifications := default false (notificationsBox form);
          maxFileSize := match Builtin.parseInt (maxFileSizeInput form) with
                         | Some n => if n =? 0 then 10 else n
                         | None => 10
                         end;
          autoAnalyze := default false (autoAnalyzeBox form) |} s).

(** [handleLogout()]; [confirmed] is the answer to the confirmation. *)
Definition handleLogout (s : State) (confirmed : bool) : State :=
  if confirmed then
    showToast
      (set_localStorage (delete "currentUser" (localStorage s))
         (set_currentUser JNull s))
      "Logged out successfully" ToastSuccess
  else s.

(** [processFiles(files)] up to its first [await]: the files that go on to
    [addImageToGallery], in their order. *)
Definition processFiles_begin (s : State) (files : list File) : list File * State :=
  if negb (Builtin.truthy (currentUser s)) then
    ([], showToast s "Please sign in to upload images" ToastWarning)
  else
    match files with
    | [] => ([], s)
    | _ :: _ =>
        let '(validFiles, s1) := validateFiles s files in
        match validFiles with
        | [] => ([], s1)
        | _ :: _ =>
            (validFiles,
             showToast s1 ("Processing " +:+ pretty (length validFiles)
                           +:+ " image(s)...") ToastInfo)
        end
    end.

(** The start of the application after the loading screen: [loadUserData],
    [loadSettings], [loadAnalysisHistory] on the state of the constructor,
    then [updateUI] ([updateStats] and [updateHistory]). *)
Definition init (store : gmap string string) : option State :=
  match loadAnalysisHistory
          (loadSettings JSON_parse (loadUserData JSON_parse (initialState store))) with
  | Some s => Some (updateHistory (updateStats s))
  | None => None
  end.

End Session.

(** ** Vocabulary of the properties *)

(** Whether [validateFiles] keeps a file. *)
Definition accepts (s : State) (file : File) : bool :=
  JS.arrayIncludes allowedTypes (file_type file)
  && negb (Z.of_N (file_size file) >? maxSize s).

(** The toast of a file that is not kept. *)
Definition rejection (s : State) (file : File) : option Toast :=
  if negb (JS.arrayIncludes allowedTypes (file_type file)) then
    Some (mkToast (file_name file +:+ ": Unsupported file type") ToastError)
  else if Z.of_N (file_size file) >? maxSize s then
    Some (mkToast (file_name file +:+ ": File too large (max "
                   +:+ pretty (maxFileSize (settings s)) +:+ "MB)") ToastError)
  else None.

(** The allow-list of four MIME types: JPEG, PNG, GIF and WebP. *)
Definition fourTypes : list string :=
  ["image/jpeg"; "image/png"; "image/gif"; "image/webp"].

(** The terminal statuses. *)
Definition terminal (st : Status) : Prop :=
  st = Authorized \/ st = Unauthorized \/ st = Error.

(** The number of items of a history with a given status. *)
Fixpoint countStatus (st : Status) (history : list HistoryItem) : nat :=
  match history with
  | [] => 0%nat
  | item :: rest =>
      if decide (h_status item = st) then S (countStatus st rest)
      else countStatus st rest
  end.

(** The white space characters: TAB, LF, VT, FF, CR, SPACE and NO-BREAK
    SPACE, by their code units. *)
Definition blank (c : ascii) : Prop :=
  N_of_ascii c ∈ [9; 10; 11; 12; 13; 32; 160]%N.

(** A text of white space only (the empty text is one). *)
Fixpoint whitespaceOnly (s : string) : Prop :=
  match s with
  | EmptyString => True
  | String c s' => blank c /\ whitespaceOnly s'
  end.





(** The double quote as a text. *)
Definition quoteMark : string := String (ascii_of_N 34) EmptyString.

(** A name with each double quote written twice. *)
Fixpoint doubledQuotes (name : string) : string :=
  match name with
  | EmptyString => EmptyString
  | String c rest =>
      if (N_of_ascii c =? 34)%N then String c (String c (doubledQuotes rest))
      else String c (doubledQuotes rest)
  end.

(** The reader of a quoted field of CSV, after its opening quote: a doubled
    quote is one quote of the content, a single one closes the field and
    nothing may follow it. *)
Fixpoint readQuoted (s : string) : option string :=
  match s with
  | EmptyString => None
  | String c rest =>
      if (N_of_ascii c =? 34)%N then
        match rest with
        | EmptyString => Some EmptyString
        | String c' rest' =>
            if (N_of_ascii c' =? 34)%N
            then option_map (String c') (readQuoted rest')
            else None
        end
      else option_map (String c) (readQuoted rest)
  end.

Definition csvUnquote (field : string) : option string :=
  match field with
  | String c rest => if (N_of_ascii c =? 34)%N then readQuoted rest else None
  | EmptyString => None
  end.

(** The field of a name in a line of CSV. *)
Definition quotedName (name : string) : string :=
  quoteMark +:+ doubledQuotes name +:+ quoteMark.

(** The word of a status. *)
Definition statusWord (st : Status) : string :=
  match st with
  | Pending => "pending"
  | Analyzing => "analyzing"
  | Authorized => "authorized"
  | Unauthorized => "unauthorized"
  | Error => "error"
  end.

(** The line of one item: the name between quotes with its quotes doubled,
    the status, the confidence (nothing when there is none), the date
    between quotes as it is ([undefined] when there is none), the size in
    decimal; commas between them. *)
Definition csvRecord (item : HistoryItem) : string :=
  quotedName (h_name item) +:+ "," +:+ statusWord (h_status item) +:+ ","
  +:+ match h_confidence item with Some c => c | None => EmptyString end +:+ ","
  +:+ quoteMark +:+ match h_date item with Some d => d | None => "undefined" end
  +:+ quoteMark +:+ "," +:+ pretty (h_size item).

(** The lines of the items, each after a line feed. *)
Fixpoint csvRecords (history : list HistoryItem) : string :=
  match history with
  | [] => EmptyString
  | item :: rest =>
      String (ascii_of_N 10) EmptyString +:+ csvRecord item +:+ csvRecords rest
  end.

(** The value of a decimal digit. *)
Definition digitOf (c : ascii) : option Z :=
  if ((48 <=? N_of_ascii c) && (N_of_ascii c <=? 57))%N
  then Some (Z.of_N (N_of_ascii c) - 48) else None.

(** The number of tenths written by a text of digits, a point and one
    digit, read after the digits [acc] ([seen] tells whether there were
    any); [None] for any other text. *)
Fixpoint readTenths (acc : Z) (seen : bool) (s : string) : option Z :=
  match s with
  | EmptyString => None
  | String c rest =>
      if (N_of_ascii c =? 46)%N then
        match rest with
        | String d EmptyString =>
            match digitOf d with
            | Some v => if seen then Some (10 * acc + v) else None
            | None => None
            end
        | _ => None
        end
      else
        match digitOf c with
        | Some v => readTenths (10 * acc + v) true rest
        | None => None
        end
  end.

(** The tenths of a percentage written with one decimal: [93.4] is 934. *)
Definition tenthsOfText (text : string) : option Z := readTenths 0 false text.

(** ** Sample runs *)

Module Sample.

(** A browser that never refuses a write. *)
Definition roomy (store : gmap string string) : bool := true.

Definition png2MB : File :=
  {| file_name := "billboard.png"; file_size := 2097152; file_type := "image/png" |}.

Definition jpgAlias : File :=
  {| file_name := "photo.jpg"; file_size := 1024; file_type := "image/jpg" |}.

Definition pdf : File :=
  {| file_name := "notes.pdf"; file_size := 1024; file_type := "application/pdf" |}.

Definition atLimit : File :=
  {| file_name := "limit.png"; file_size := 10485760; file_type := "image/png" |}.

Definition overLimit : File :=
  {| file_name := "over.png"; file_size := 10485761; file_type := "image/png" |}.

Definition start : State := initialState ∅.

(** One image uploaded. *)
Definition onePending : State :=
  addImageToGallery start png2MB "img_1" "data:image/png;base64,iVBORw0KGgo="
    "2024-05-01T10:00:00.000Z".

(** Its analysis has started. *)
Definition oneAnalyzing : State := stateOf (analyzeImage onePending "img_1").

Definition call1 : Suspended := {| k_imageId := "img_1"; k_analyzeBtn := true |}.

(** Its analysis has completed with the draws 3/4 and 1/2. *)
Definition oneAuthorized : State :=
  analyzeImage_resume roomy oneAnalyzing call1 Fulfilled (3 # 4) (1 # 2)
    "2024-05-01T10:00:04.000Z".

(** A settings record that is not JSON. *)
Definition corruptStore : gmap string string :=
  {[ "billboardAI_settings" := "{oops" ]}.

Definition corruptUserStore : gmap string string :=
  {[ "currentUser" := "{oops" ]}.

Definition item (name : string) (st : Status) : HistoryItem :=
  {| h_id := "img_" +:+ name; h_name := name; h_status := st;
     h_confidence := Some "91.5"; h_date := Some "2024-05-01T10:00:04.000Z";
     h_size := 2048 |}.

Definition history3 : list HistoryItem :=
  [item "North Road.png" Authorized; item "harbour.jpg" Unauthorized;
   item "Ring road east.gif" Authorized].

Definition withHistory3 : State := set_analysisHistory history3 start.

(** The name [Ad "Big" Sign.jpg]. *)
Definition bigSign : string := "Ad " +:+ Json.DQ +:+ "Big" +:+ Json.DQ +:+ " Sign.jpg".

End Sample.

(** ** Vocabulary of the further properties *)

(** The value [JSON.parse] gives for the text of the settings. *)
Definition jvalOfSettings (st : Settings) : JVal :=
  JObj [("theme", JStr (theme st)); ("notifications", JBool (notifications st));
        ("maxFileSize", JNum (maxFileSize st)); ("autoAnalyze", JBool (autoAnalyze st))].

(** A history of verdicts: every item is authorized or unauthorized. *)
Definition verdictsOnly (history : list HistoryItem) : Prop :=
  Forall (λ item, h_status item = Authorized \/ h_status item = Unauthorized) history.

(** The element of an entry shows the status of the entry. *)
Definition badgeAgrees (s : State) (imageId : string) : Prop :=
  exists imageData imageElement,
    imageObjects s !! imageId = Some imageData
    /\ elementObjects s !! imageId = Some imageElement
    /\ el_status imageElement = Some (img_status imageData).

(** The record of a key, if the store has one, is not empty and does not
    parse. *)
Definition corruptRecord (JSON_parse : string -> option JVal)
    (store : gmap string string) (key : string) : Prop :=
  match store !! key with
  | Some text => text <> EmptyString /\ JSON_parse text = None
  | None => True
  end.

(** A text without the characters that are markup in HTML: the double
    quote, the ampersand and the two angle brackets. *)
Fixpoint plainText (s : string) : Prop :=
  match s with
  | EmptyString => True
  | String c rest => (N_of_ascii c ∉ [34; 38; 60; 62]%N) /\ plainText rest
  end.

(** An integer the browser holds exactly: a number is a double, and the
    integers below 2^53 in absolute value are the ones among them that
    arithmetic, [parseInt] and [JSON.stringify] treat as the integers they
    are. *)
Definition safeInteger (n : Z) : Prop := - 2 ^ 53 < n < 2 ^ 53.

(** Every size of the history is such an integer. *)
Definition safeSizes (history : list HistoryItem) : Prop :=
  Forall (λ item, safeInteger (Z.of_N (h_size item))) history.

(** The text after a number does not go on with a digit, a point or an
    exponent. *)
Definition endsNumber (rest : string) : Prop :=
  match rest with
  | String d _ =>
      Json.isDigit d || (JS.code d =? 46)%N || (JS.code d =? 101)%N || (JS.code d =? 69)%N
      = false
  | EmptyString => True
  end.

(** No character of the text is the letter T. *)
Fixpoint noT (s : string) : Prop :=
  match s with
  | EmptyString => True
  | String c rest => (JS.code c =? 84)%N = false /\ noT rest
  end.

Module More.

Definition signedIn : State :=
  set_currentUser (JObj [("username", JStr "ines"); ("role", JStr "inspector")])
    Sample.start.

Definition darkSettings : Settings :=
  {| theme := "dark"; notifications := false; maxFileSize := 25; autoAnalyze := true |}.

Definition dark : State := set_settings darkSettings Sample.start.

Definition form25 : PreferencesForm :=
  {| themeSelect := Some "dark"; notificationsBox := Some false;
     maxFileSizeInput := Some "25"; autoAnalyzeBox := Some true |}.

Definition formZero : PreferencesForm :=
  {| themeSelect := Some EmptyString; notificationsBox := None;
     maxFileSizeInput := Some "0"; autoAnalyzeBox := None |}.

(** A settings record with one property. *)
Definition onlyMaxFileSize : gmap string string :=
  {[ "billboardAI_settings" := "{ " +:+ Json.DQ +:+ "maxFileSize" +:+ Json.DQ +:+ ": 50 }" ]}.

(** A store whose three records are not JSON. *)
Definition allCorrupt : gmap string string :=
  {[ "currentUser" := "{oops"; "billboardAI_settings" := "[1,";
     "billboardAI_history" := "not json" ]}.

(** A browser that refuses every write. *)
Definition full (store : gmap string string) : bool := false.

(** The sample run with a second image uploaded. *)
Definition twoImages : State :=
  addImageToGallery Sample.oneAnalyzing Sample.atLimit "img_2"
    "data:image/png;base64,AAAA" "2024-05-01T10:00:02.000Z".

End More.

(** * Properties *)

(** ** Validation *)

Lemma set_toasts_id s : set_toasts (toasts s) s = s.
Proof. by destruct s. Qed.

Lemma validateFile_step s acc extra f :
  validateFile (maxSize s) (acc, set_toasts (toasts s ++ extra) s) f
  = (acc ++ (if accepts s f then [f] else []),
     set_toasts (toasts s ++ extra ++ option_list (rejection s f)) s).
Proof.
  unfold validateFile, rejection, accepts, showToast.
  destruct (JS.arrayIncludes allowedTypes (file_type f)); simpl.
  - destruct (Z.of_N (file_size f) >? maxSize s); simpl.
    + by rewrite app_nil_r, <- app_assoc.
    + by rewrite app_nil_r.
  - by rewrite app_nil_r, <- app_assoc.
Qed.

Lemma validateFiles_fold s files acc extra :
  fold_left (validateFile (maxSize s)) files (acc, set_toasts (toasts s ++ extra) s)
  = (acc ++ filter (λ f, accepts s f = true) files,
     set_toasts (toasts s ++ extra ++ omap (rejection s) files) s).
Proof.
  revert acc extra. induction files as [|f files IH]; intros acc extra.
  - simpl. by rewrite !app_nil_r.
  - cbn [fold_left]. rewrite validateFile_step, IH, filter_cons.
    cbn [omap list_omap]. fold (omap (rejection s) files).
    destruct (rejection s f) as [t|] eqn:Hr; destruct (accepts s f) eqn:Ha;
      simpl; by rewrite ?app_nil_r, <- ?app_assoc.
Qed.

(** [validateFiles] keeps the files that pass both tests, in their order,
    and sends one toast for each of the others, in their order. *)
Lemma validateFiles_spec s files :
  validateFiles s files
  = (filter (λ f, accepts s f = true) files,
     set_toasts (toasts s ++ omap (rejection s) files) s).
Proof.
  unfold validateFiles.
  rewrite <- (set_toasts_id s) at 2. rewrite <- (app_nil_r (toasts s)) at 1.
  by rewrite validateFiles_fold.
Qed.

Lemma arrayIncludes_true xs x : JS.arrayIncludes xs x = true <-> x ∈ xs.
Proof. unfold JS.arrayIncludes. by rewrite bool_decide_eq_true. Qed.

Lemma arrayIncludes_false xs x : JS.arrayIncludes xs x = false <-> x ∉ xs.
Proof. unfold JS.arrayIncludes. by rewrite bool_decide_eq_false. Qed.

Lemma rejected_toast s files f t :
  f ∈ files -> rejection s f = Some t -> t ∈ toasts (validateFiles s files).2.
Proof.
  intros Hin Hr. rewrite validateFiles_spec. simpl.
  apply elem_of_app. right. apply list_elem_of_omap. eauto.
Qed.

(** C3, as written, fails: a file of MIME type [image/jpg], which is none of
    the four types JPEG, PNG, GIF and WebP of the allow-list, is kept by
    [validateFiles]. *)
Lemma validateFiles_keeps_image_jpg :
  (file_type Sample.jpgAlias ∉ fourTypes)
  /\ validateFiles Sample.start [Sample.jpgAlias] = ([Sample.jpgAlias], Sample.start).
Proof.
  split; [|reflexivity].
  apply arrayIncludes_false. reflexivity.
Qed.

(** C3, amended: the allow-list of [validateFiles] has five MIME types,
    [image/jpeg], [image/jpg], [image/png], [image/gif] and [image/webp].
    For every state and batch, every file kept is a file of the batch whose
    type is one of the five, and every file of the batch whose type is none
    of them is not kept and gets the toast [<name>: Unsupported file type]. *)
Theorem validateFiles_allow_list (s : State) (files : list File) :
  (forall f, f ∈ (validateFiles s files).1 ->
     f ∈ files /\ file_type f ∈ allowedTypes)
  /\ (forall f, f ∈ files -> file_type f ∉ allowedTypes ->
        (f ∉ (validateFiles s files).1)
        /\ mkToast (file_name f +:+ ": Unsupported file type") ToastError
             ∈ toasts (validateFiles s files).2).
Proof.
  split.
  - intros f. rewrite validateFiles_spec. simpl.
    rewrite list_elem_of_filter. intros [Hacc Hin]. split; [done|].
    unfold accepts in Hacc. apply andb_true_iff in Hacc as [Hty _].
    by apply arrayIncludes_true.
  - intros f Hin Hty. split.
    + rewrite validateFiles_spec. simpl. rewrite list_elem_of_filter.
      intros [Hacc _]. unfold accepts in Hacc.
      apply andb_true_iff in Hacc as [Hacc _].
      by apply arrayIncludes_true in Hacc.
    + apply (rejected_toast s files f); [done|].
      unfold rejection. apply arrayIncludes_false in Hty. by rewrite Hty.
Qed.

(** C6: for every [maxFileSize] setting and every batch, a file of an
    allowed type whose size is exactly [maxFileSize * 1024 * 1024] bytes is
    kept, and one whose size is one byte more is not kept and gets the toast
    [<name>: File too large (max <maxFileSize>MB)]. *)
Theorem validateFiles_size_limit (s : State) (files : list File) (f : File) :
  f ∈ files ->
  file_type f ∈ allowedTypes ->
  (Z.of_N (file_size f) = maxFileSize (settings s) * 1024 * 1024 ->
     f ∈ (validateFiles s files).1)
  /\ (Z.of_N (file_size f) = maxFileSize (settings s) * 1024 * 1024 + 1 ->
        (f ∉ (validateFiles s files).1)
        /\ mkToast (file_name f +:+ ": File too large (max "
                    +:+ pretty (maxFileSize (settings s)) +:+ "MB)") ToastError
             ∈ toasts (validateFiles s files).2).
Proof.
  intros Hin Hty. apply arrayIncludes_true in Hty. split; intros Hsz.
  - rewrite validateFiles_spec. simpl. apply list_elem_of_filter. split; [|done].
    unfold accepts, maxSize. rewrite Hty, Hsz. simpl.
    apply negb_true_iff. rewrite Z.gtb_ltb. apply Z.ltb_ge. lia.
  - assert ((Z.of_N (file_size f) >? maxSize s) = true) as Hgt.
    { unfold maxSize. rewrite Hsz, Z.gtb_ltb. apply Z.ltb_lt. lia. }
    split.
    + rewrite validateFiles_spec. simpl. rewrite list_elem_of_filter.
      intros [Hacc _]. unfold accepts in Hacc. rewrite Hty, Hgt in Hacc. done.
    + apply (rejected_toast s files f); [done|].
      unfold rejection. by rewrite Hty, Hgt.
Qed.

Lemma validateFiles_size_limit_witness :
  Sample.atLimit ∈ (validateFiles Sample.start [Sample.atLimit; Sample.overLimit]).1
  /\ (Sample.overLimit ∉ (validateFiles Sample.start [Sample.atLimit; Sample.overLimit]).1).
Proof.
  split.
  - apply (validateFiles_size_limit Sample.start [Sample.atLimit; Sample.overLimit]
             Sample.atLimit).
    + apply list_elem_of_here.
    + apply arrayIncludes_true. reflexivity.
    + reflexivity.
  - apply (validateFiles_size_limit Sample.start [Sample.atLimit; Sample.overLimit]
             Sample.overLimit).
    + apply list_elem_of_further, list_elem_of_here.
    + apply arrayIncludes_true. reflexivity.
    + reflexivity.
Defined.

(** ** Persistence adapter *)

(** Whatever [JSON.parse] is, a settings record it rejects leaves the whole
    state, the store included, as it was. *)
Lemma loadSettings_unparsable (JSON_parse : string -> option JVal) (s : State) (text : string) :
  localStorage s !! "billboardAI_settings" = Some text ->
  JSON_parse text = None ->
  loadSettings JSON_parse s = s.
Proof.
  intros Hget Hparse. unfold loadSettings. rewrite Hget.
  destruct (decide (text = EmptyString)); [done|]. by rewrite Hparse.
Qed.

(** The sibling [loadUserData] removes the record it cannot parse. *)
Lemma loadUserData_unparsable (JSON_parse : string -> option JVal) (s : State) (text : string) :
  localStorage s !! "currentUser" = Some text ->
  text <> EmptyString ->
  JSON_parse text = None ->
  localStorage (loadUserData JSON_parse s) !! "currentUser" = None
  /\ currentUser (loadUserData JSON_parse s) = currentUser s.
Proof.
  intros Hget Hne Hparse. unfold loadUserData. rewrite Hget.
  destruct (decide (text = EmptyString)); [done|]. rewrite Hparse. simpl.
  split; [apply lookup_delete_eq | done].
Qed.

(** A settings record that parses is merged over the current settings. *)
Lemma loadSettings_parsed (JSON_parse : string -> option JVal) (s : State) (text : string) (v : JVal) :
  localStorage s !! "billboardAI_settings" = Some text ->
  text <> EmptyString ->
  JSON_parse text = Some v ->
  loadSettings JSON_parse s = set_settings (spreadSettings (settings s) v) s.
Proof.
  intros Hget Hne Hparse. unfold loadSettings. rewrite Hget.
  destruct (decide (text = EmptyString)); [done|]. by rewrite Hparse.
Qed.

(** C2, at the store whose settings record is the text [{oops]: the text is
    not JSON; [loadSettings], run on the state of the constructor, keeps the
    default settings (theme light, notifications on, 10 MB, no automatic
    analysis), but the record is still in the store afterwards, while
    [loadUserData] does remove a user record of the same text. *)
Theorem loadSettings_keeps_corrupt_record :
  Json.parse "{oops" = None
  /\ settings (loadSettings Json.parse (initialState Sample.corruptStore))
     = {| theme := "light"; notifications := true; maxFileSize := 10;
          autoAnalyze := false |}
  /\ localStorage (loadSettings Json.parse (initialState Sample.corruptStore))
       !! "billboardAI_settings" = Some "{oops"
  /\ localStorage (loadUserData Json.parse (initialState Sample.corruptUserStore))
       !! "currentUser" = None.
Proof.
  assert (Json.parse "{oops" = None) as Hparse by reflexivity.
  split; [exact Hparse|].
  rewrite (loadSettings_unparsable Json.parse _ "{oops") by done.
  split; [reflexivity|]. split; [reflexivity|].
  by apply (loadUserData_unparsable Json.parse _ "{oops").
Qed.

(** Settings written by [saveSettings] are read back by [loadSettings]. *)
Example settings_round_trip :
  settings (loadSettings Json.parse
              (initialState
                 (localStorage
                    (saveSettings Sample.roomy
                       (set_settings (mkSettings "dark" false 25 true) Sample.start)))))
  = mkSettings "dark" false 25 true.
Proof. vm_compute. reflexivity. Qed.

(** ** Statistics *)

Lemma filter_status_length (st : Status) (history : list HistoryItem) :
  length (filter (λ item, h_status item = st) history) = countStatus st history.
Proof.
  induction history as [|item rest IH]; [done|].
  rewrite filter_cons. simpl. destruct (decide (h_status item = st)); simpl; lia.
Qed.

Lemma countStatus_Permutation (st : Status) (h1 h2 : list HistoryItem) :
  h1 ≡ₚ h2 -> countStatus st h1 = countStatus st h2.
Proof.
  intros Hp. rewrite <- !filter_status_length. by rewrite Hp.
Qed.

(** No status is counted twice: the two counters never exceed the total. *)
Lemma counts_le_total (history : list HistoryItem) :
  (countStatus Authorized history + countStatus Unauthorized history
   <= length history)%nat.
Proof.
  induction history as [|item rest IH]; simpl; [lia|].
  destruct (h_status item); simpl; repeat case_decide; try done; lia.
Qed.

(** C7: for a history that is any ordering of N items, A of them authorized
    and U unauthorized, [updateStats] sets the counters to total N,
    authorized A, unauthorized U. *)
Theorem updateStats_counts (s : State) (items : list HistoryItem) :
  analysisHistory s ≡ₚ items ->
  statCounters (updateStats s)
  = {| total := length items;
       authorizedCount := countStatus Authorized items;
       unauthorizedCount := countStatus Unauthorized items |}.
Proof.
  intros Hp. unfold updateStats, stats. simpl.
  rewrite !filter_status_length.
  rewrite (countStatus_Permutation Authorized _ _ Hp).
  rewrite (countStatus_Permutation Unauthorized _ _ Hp).
  by rewrite (Permutation_length Hp).
Qed.

Lemma updateStats_counts_witness :
  statCounters (updateStats Sample.withHistory3)
  = {| total := 3; authorizedCount := 2; unauthorizedCount := 1 |}.
Proof.
  apply (updateStats_counts Sample.withHistory3
           [Sample.item "harbour.jpg" Unauthorized;
            Sample.item "North Road.png" Authorized;
            Sample.item "Ring road east.gif" Authorized]).
  apply perm_swap.
Defined.

(** ** Search *)

Lemma trimEnd_cons_nonwhite c s :
  JS.isWhiteSpace c = false -> JS.trimEnd (String c s) <> EmptyString.
Proof. intros Hc. simpl. rewrite Hc. by destruct (JS.trimEnd s). Qed.

(** The white space of [trim] is the white space of the vocabulary. *)
Lemma isWhiteSpace_blank c : JS.isWhiteSpace c = true <-> blank c.
Proof.
  unfold JS.isWhiteSpace, JS.code, blank.
  rewrite !orb_true_iff, andb_true_iff, !N.leb_le, !N.eqb_eq.
  rewrite !elem_of_cons, elem_of_nil. lia.
Qed.

Lemma trimStart_whitespaceOnly s : JS.trimStart s = EmptyString <-> whitespaceOnly s.
Proof.
  induction s as [|c s IH]; simpl; [done|].
  rewrite <- isWhiteSpace_blank.
  destruct (JS.isWhiteSpace c) eqn:Hc.
  - rewrite IH. tauto.
  - split; [done|]. intros [? _]. done.
Qed.

Lemma trimStart_head s :
  JS.trimStart s = EmptyString
  \/ exists c t, JS.trimStart s = String c t /\ JS.isWhiteSpace c = false.
Proof.
  induction s as [|c s IH]; simpl; [by left|].
  destruct (JS.isWhiteSpace c) eqn:Hc; [done|]. right. eauto.
Qed.

(** [!searchTerm.trim()] holds of the texts of white space only. *)
Lemma trim_empty_iff s : JS.trim s = EmptyString <-> whitespaceOnly s.
Proof.
  unfold JS.trim. rewrite <- trimStart_whitespaceOnly.
  destruct (trimStart_head s) as [He|(c & t & He & Hc)]; rewrite He.
  - done.
  - split; [|done]. intros H. by apply trimEnd_cons_nonwhite in H.
Qed.

Lemma append_cons c s t : String c s +:+ t = String c (s +:+ t).
Proof. reflexivity. Qed.

Lemma append_nil t : EmptyString +:+ t = t.
Proof. reflexivity. Qed.



(** *** Letters *)













(** The search [ROAD] over the sample history. *)
Example filterHistory_ROAD :
  historyRows (filterHistory Sample.withHistory3 "ROAD")
  = [Sample.item "North Road.png" Authorized;
     Sample.item "Ring road east.gif" Authorized].
Proof. reflexivity. Qed.

(** ** CSV export *)

Lemma code_34 c : (JS.code c =? 34)%N = true <-> c = ascii_of_N 34.
Proof.
  unfold JS.code. rewrite N.eqb_eq. split.
  - intros H. by rewrite <- (ascii_N_embedding c), H.
  - intros ->. reflexivity.
Qed.

Lemma append_assoc (s t u : string) : (s +:+ t) +:+ u = s +:+ t +:+ u.
Proof. induction s as [|c s IH]; [done|]. by rewrite !append_cons, IH. Qed.

Lemma append_empty_r (s : string) : s +:+ EmptyString = s.
Proof. induction s as [|c s IH]; [done|]. by rewrite append_cons, IH. Qed.

Lemma replaceAll_doubledQuotes name :
  JS.replaceAll (ascii_of_N 34) (Json.DQ +:+ Json.DQ) name = doubledQuotes name.
Proof.
  induction name as [|c rest IH]; [done|].
  cbn [JS.replaceAll doubledQuotes]. rewrite IH.
  change (N_of_ascii c) with (JS.code c).
  destruct (JS.code c =? 34)%N eqn:Hc.
  - apply code_34 in Hc. subst c. rewrite decide_True by done. reflexivity.
  - rewrite decide_False; [done|]. intros ->. by rewrite (proj2 (code_34 _)) in Hc.
Qed.

(** The line [exportToCSV] joins from the fields of an item is the line of
    the vocabulary. *)
Lemma csvFields_csvRecord item : JS.join "," (csvFields item) = csvRecord item.
Proof.
  unfold csvFields, csvRecord, quotedName, quoteMark, Json.DQ, joinText, templateText.
  cbn [JS.join]. rewrite replaceAll_doubledQuotes.
  rewrite !append_cons, !append_nil, !append_assoc.
  destruct (h_status item), (h_confidence item), (h_date item); reflexivity.
Qed.

Lemma join_cons_cons (sep p q : string) (rest : list string) :
  JS.join sep (p :: q :: rest) = p +:+ sep +:+ JS.join sep (q :: rest).
Proof. reflexivity. Qed.

Lemma join_lines (head : string) (history : list HistoryItem) :
  JS.join (String (ascii_of_N 10) EmptyString)
    (head :: map (λ item, JS.join "," (csvFields item)) history)
  = head +:+ csvRecords history.
Proof.
  revert head. induction history as [|item rest IH]; intros head.
  - cbn. by rewrite append_empty_r.
  - cbn [map csvRecords]. rewrite join_cons_cons, IH, csvFields_csvRecord.
    reflexivity.
Qed.

Lemma readQuoted_doubledQuotes name :
  readQuoted (doubledQuotes name +:+ quoteMark) = Some name.
Proof.
  induction name as [|c rest IH]; [done|]. cbn [doubledQuotes].
  destruct (N_of_ascii c =? 34)%N eqn:Hc.
  - rewrite !append_cons. cbn [readQuoted]. rewrite !Hc. by rewrite IH.
  - rewrite append_cons. cbn [readQuoted]. rewrite Hc. by rewrite IH.
Qed.

(** A reader of CSV gets the name back from its field. *)
Lemma csvUnquote_quotedName name : csvUnquote (quotedName name) = Some name.
Proof.
  unfold quotedName, quoteMark at 1. rewrite append_cons, append_nil.
  apply readQuoted_doubledQuotes.
Qed.

(** C4: for every non-empty history, the CSV text [exportToCSV] offers is
    the header line followed by one line per item, newest first; a line has
    the five columns name, status, confidence, date, size in this order,
    separated by commas; the name is put between double quotes with each of
    its double quotes written twice, so that a reader of CSV gets the name
    back; the date is put between double quotes as it is, and the status,
    the confidence and the size are written as they are. *)
Theorem exportToCSV_text (s : State) (now : string) :
  analysisHistory s <> [] ->
  exists file,
    (exportToCSV s now).1 = Some file
    /\ download_text file
       = "Image Name,Status,Confidence (%),Date,File Size (bytes)"
         +:+ csvRecords (analysisHistory s)
    /\ forall item, item ∈ analysisHistory s ->
         csvUnquote (quotedName (h_name item)) = Some (h_name item).
Proof.
  intros Hne. unfold exportToCSV.
  destruct (analysisHistory s) as [|item rest] eqn:Hh; [done|].
  eexists. split; [reflexivity|]. split.
  - cbn [download_text]. unfold csvContent. rewrite join_lines. reflexivity.
  - intros x _. apply csvUnquote_quotedName.
Qed.

Lemma exportToCSV_text_witness :
  exists file,
    (exportToCSV Sample.withHistory3 "2024-05-02T08:00:00.000Z").1 = Some file
    /\ download_text file
       = "Image Name,Status,Confidence (%),Date,File Size (bytes)"
         +:+ csvRecords Sample.history3
    /\ forall item, item ∈ Sample.history3 ->
         csvUnquote (quotedName (h_name item)) = Some (h_name item).
Proof.
  apply (exportToCSV_text Sample.withHistory3 "2024-05-02T08:00:00.000Z").
  discriminate.
Defined.

(** The line of an item named [Ad "Big" Sign.jpg]. *)
Example csvRecord_bigSign :
  csvRecord (Sample.item Sample.bigSign Authorized)
  = quoteMark +:+ "Ad " +:+ quoteMark +:+ quoteMark +:+ "Big" +:+ quoteMark
    +:+ quoteMark +:+ " Sign.jpg" +:+ quoteMark
    +:+ ",authorized,91.5," +:+ quoteMark +:+ "2024-05-01T10:00:04.000Z"
    +:+ quoteMark +:+ ",2048".
Proof. reflexivity. Qed.

(** ** Analysis lifecycle *)

Lemma status_of_entry (s : State) (imageId : string) (st : Status) :
  img_status <$> uploadedImages_get s imageId = Some st ->
  exists imageData,
    uploadedImages_get s imageId = Some imageData /\ img_status imageData = st.
Proof.
  destruct (uploadedImages_get s imageId) as [d|]; simpl; [|done].
  intros [= <-]. eauto.
Qed.

Lemma uploadedImages_get_Some (s : State) (imageId : string) (imageData : ImageData) :
  uploadedImages_get s imageId = Some imageData ->
  imageId ∈ uploadedImages s /\ imageObjects s !! imageId = Some imageData.
Proof. unfold uploadedImages_get. by case_decide. Qed.

Lemma getElementById_Some (s : State) (imageId : string) (imageElement : ImageElement) :
  getElementById s imageId = Some imageElement ->
  imageId ∈ gallery s /\ elementObjects s !! imageId = Some imageElement.
Proof. unfold getElementById. by case_decide. Qed.

(** A call returns at once when the element of the entry is not in the
    document. *)
Lemma analyzeImage_no_element (s : State) (imageId : string) :
  getElementById s imageId = None -> analyzeImage s imageId = Returned s.
Proof.
  intros H. unfold analyzeImage. rewrite H.
  destruct (uploadedImages_get s imageId); [|done]. by case_decide.
Qed.

(** A call on an entry that is not being analysed and whose element is in
    the document goes ahead to the [await]: the entry and the element are
    marked as analysing, nothing else changes. *)
Lemma analyzeImage_proceeds (s : State) (imageId : string) (st : Status) :
  img_status <$> uploadedImages_get s imageId = Some st ->
  st <> Analyzing ->
  is_Some (getElementById s imageId) ->
  exists s1 k,
    analyzeImage s imageId = Awaiting s1 k
    /\ k_imageId k = imageId
    /\ img_status <$> uploadedImages_get s1 imageId = Some Analyzing
    /\ is_Some (imageObjects s1 !! imageId)
    /\ is_Some (elementObjects s1 !! imageId)
    /\ analysisHistory s1 = analysisHistory s
    /\ localStorage s1 = localStorage s
    /\ uploadedImages s1 = uploadedImages s.
Proof.
  intros Hst Hne [el Hel].
  apply status_of_entry in Hst as (d & Hd & Hs).
  unfold analyzeImage. rewrite Hd, Hel. rewrite decide_False by congruence.
  eexists _, _. split; [reflexivity|]. split; [reflexivity|].
  apply uploadedImages_get_Some in Hd as [Hin _].
  unfold uploadedImages_get. cbn. rewrite decide_True by done.
  rewrite !lookup_insert_eq. eauto 10.
Qed.

Lemma verdict_cases (random : Q) :
  verdict random = Authorized \/ verdict random = Unauthorized.
Proof. unfold verdict. destruct (Qlt_le_dec (1 # 2) random); auto. Qed.

(** The confidence of a draw of [[0,1)] is between 80.0 and 100.0. *)
Lemma confidence_tenths_bounds (random : Q) :
  (0 <= random)%Q -> (random < 1)%Q ->
  800 <= JS.toFixed1_tenths (random * 20 + 80) <= 1000.
Proof.
  intros H0 H1. unfold JS.toFixed1_tenths. split.
  - rewrite <- (Qfloor_Z 800). apply Qfloor_resp_le. unfold inject_Z. lra.
  - assert (Qfloor ((random * 20 + 80) * 10 + (1 # 2)) < 1001); [|lia].
    rewrite Zlt_Qlt. eapply Qle_lt_trans; [apply Qfloor_le|]. unfold inject_Z. lra.
Qed.

(** A reader of decimals gets the tenths back from the text [toFixed(1)]
    writes for them, for every number of tenths from 800 to 1000. *)
Lemma tenthsOfText_decimal1 (tenths : Z) :
  800 <= tenths <= 1000 -> tenthsOfText (JS.decimal1 tenths) = Some tenths.
Proof.
  intros Hrange.
  assert (forallb (λ k, bool_decide (tenthsOfText (JS.decimal1 (800 + Z.of_nat k))
                                     = Some (800 + Z.of_nat k)))
                  (seq 0 201) = true) as Hall by (vm_compute; reflexivity).
  rewrite forallb_forall in Hall.
  specialize (Hall (Z.to_nat (tenths - 800))).
  replace (800 + Z.of_nat (Z.to_nat (tenths - 800))) with tenths in Hall by lia.
  apply bool_decide_eq_true in Hall; [done|]. apply in_seq. lia.
Qed.

(** What the completion of the analysis call does, in whatever state it
    finds: the entry gets the verdict, the confidence and the time, and its
    snapshot is put in front of the history. *)
Lemma analyzeImage_resume_fulfilled (quota_ok : gmap string string -> bool)
    (s : State) (k : Suspended) (random1 random2 : Q) (now : string) :
  is_Some (imageObjects s !! k_imageId k) ->
  is_Some (elementObjects s !! k_imageId k) ->
  exists imageData item,
    imageObjects (analyzeImage_resume quota_ok s k Fulfilled random1 random2 now)
      !! k_imageId k = Some imageData
    /\ img_status imageData = verdict random1
    /\ img_confidence imageData = Some (confidenceOf random2)
    /\ analysisHistory (analyzeImage_resume quota_ok s k Fulfilled random1 random2 now)
       = item :: analysisHistory s
    /\ h_status item = verdict random1
    /\ h_confidence item = Some (confidenceOf random2)
    /\ uploadedImages (analyzeImage_resume quota_ok s k Fulfilled random1 random2 now)
       = uploadedImages s.
Proof.
  intros [d Hd] [e He]. unfold analyzeImage_resume. rewrite Hd, He.
  unfold updateStats, showToast, addToHistory, updateHistory, saveAnalysisHistory,
    setItem.
  cbn. destruct (quota_ok _); cbn;
    (eexists _, _; split; [apply lookup_insert_eq|]; repeat split).
Qed.

(** An analysis call that fails leaves the history as it is. *)
Lemma analyzeImage_resume_rejected (quota_ok : gmap string string -> bool)
    (s : State) (k : Suspended) (random1 random2 : Q) (now : string) :
  is_Some (imageObjects s !! k_imageId k) ->
  is_Some (elementObjects s !! k_imageId k) ->
  img_status <$> imageObjects
      (analyzeImage_resume quota_ok s k Rejected random1 random2 now) !! k_imageId k
    = Some Error
  /\ analysisHistory (analyzeImage_resume quota_ok s k Rejected random1 random2 now)
     = analysisHistory s.
Proof.
  intros [d Hd] [e He]. unfold analyzeImage_resume. rewrite Hd, He. cbn.
  by rewrite lookup_insert_eq.
Qed.

(** C10: for every id that is not a key of [uploadedImages], [analyzeImage]
    returns at once with the state it was given: the entries, the history
    and the store are as they were. *)
Theorem analyzeImage_absent_id (s : State) (imageId : string) :
  imageId ∉ uploadedImages s -> analyzeImage s imageId = Returned s.
Proof.
  intros Hnot. unfold analyzeImage, uploadedImages_get.
  by rewrite decide_False.
Qed.

Lemma analyzeImage_absent_id_witness :
  analyzeImage Sample.onePending "img_2" = Returned Sample.onePending.
Proof.
  apply (analyzeImage_absent_id Sample.onePending "img_2").
  intros H. vm_compute in H. discriminate H.
Defined.

(** C5: for every entry whose status is analyzing, [analyzeImage] on it
    returns at once with the state it was given: the entry is unchanged and
    no call is left that could append to the history. *)
Theorem analyzeImage_while_analyzing (s : State) (imageId : string) :
  img_status <$> uploadedImages_get s imageId = Some Analyzing ->
  analyzeImage s imageId = Returned s.
Proof.
  intros Hst. apply status_of_entry in Hst as (d & Hd & Hs).
  unfold analyzeImage. rewrite Hd. by rewrite decide_True.
Qed.

Lemma analyzeImage_while_analyzing_witness :
  analyzeImage Sample.oneAnalyzing "img_1" = Returned Sample.oneAnalyzing.
Proof.
  apply (analyzeImage_while_analyzing Sample.oneAnalyzing "img_1").
  vm_compute. reflexivity.
Defined.

(** C9: for every pending entry whose element is in the document,
    [analyzeImage] goes ahead to the analysis call; when that call completes
    successfully, in whatever state that still holds the objects of the
    call, with two draws of [[0,1)], the status of the entry is authorized or
    unauthorized, its confidence is a text that a reader of decimals reads
    as a number of tenths between 800 and 1000, that is between 80.0 and
    100.0, and the history has exactly one item more, which carries this
    status and confidence. *)
Theorem analysis_completes (quota_ok : gmap string string -> bool)
    (s : State) (imageId : string) :
  img_status <$> uploadedImages_get s imageId = Some Pending ->
  is_Some (getElementById s imageId) ->
  exists s1 k,
    analyzeImage s imageId = Awaiting s1 k
    /\ is_Some (imageObjects s1 !! k_imageId k)
    /\ is_Some (elementObjects s1 !! k_imageId k)
    /\ analysisHistory s1 = analysisHistory s
    /\ forall (s2 : State) (random1 random2 : Q) (now : string),
         is_Some (imageObjects s2 !! k_imageId k) ->
         is_Some (elementObjects s2 !! k_imageId k) ->
         (0 <= random1)%Q /\ (random1 < 1)%Q ->
         (0 <= random2)%Q /\ (random2 < 1)%Q ->
         exists imageData tenths item,
           imageObjects
             (analyzeImage_resume quota_ok s2 k Fulfilled random1 random2 now)
             !! imageId = Some imageData
           /\ (img_status imageData = Authorized
               \/ img_status imageData = Unauthorized)
           /\ (exists text, img_confidence imageData = Some text
                            /\ tenthsOfText text = Some tenths)
           /\ 800 <= tenths <= 1000
           /\ analysisHistory
                (analyzeImage_resume quota_ok s2 k Fulfilled random1 random2 now)
              = item :: analysisHistory s2
           /\ h_status item = img_status imageData
           /\ h_confidence item = img_confidence imageData
           /\ length (analysisHistory
                        (analyzeImage_resume quota_ok s2 k Fulfilled random1 random2 now))
              = S (length (analysisHistory s2)).
Proof.
  intros Hst Hel.
  destruct (analyzeImage_proceeds s imageId Pending Hst) as
    (s1 & k & Hcall & Hk & _ & Hobj & Helt & Hhist & _); [done|done|].
  exists s1, k. subst imageId. repeat (split; [done|]).
  intros s2 random1 random2 now Hobj2 Helt2 [Hr1 Hr1'] [Hr2 Hr2'].
  destruct (analyzeImage_resume_fulfilled quota_ok s2 k random1 random2 now Hobj2 Helt2)
    as (d & item & Hd & Hs & Hc & Hh & His & Hic & _).
  exists d, (JS.toFixed1_tenths (random2 * 20 + 80)), item.
  pose proof (confidence_tenths_bounds random2 Hr2 Hr2') as Hbounds.
  split; [done|]. split; [rewrite Hs; apply verdict_cases|].
  split; [eexists; split; [exact Hc|by apply tenthsOfText_decimal1]|].
  split; [done|].
  split; [done|]. split; [congruence|]. split; [congruence|].
  by rewrite Hh.
Qed.

Lemma analysis_completes_witness :
  exists s1 k,
    analyzeImage Sample.onePending "img_1" = Awaiting s1 k
    /\ exists imageData tenths item,
         imageObjects
           (analyzeImage_resume Sample.roomy s1 k Fulfilled (3 # 4) (1 # 2)
              "2024-05-01T10:00:04.000Z") !! "img_1" = Some imageData
         /\ (img_status imageData = Authorized \/ img_status imageData = Unauthorized)
         /\ (exists text, img_confidence imageData = Some text
                            /\ tenthsOfText text = Some tenths)
         /\ 800 <= tenths <= 1000
         /\ analysisHistory
              (analyzeImage_resume Sample.roomy s1 k Fulfilled (3 # 4) (1 # 2)
                 "2024-05-01T10:00:04.000Z")
            = item :: analysisHistory s1
         /\ h_status item = img_status imageData
         /\ h_confidence item = img_confidence imageData
         /\ length (analysisHistory
                      (analyzeImage_resume Sample.roomy s1 k Fulfilled (3 # 4) (1 # 2)
                         "2024-05-01T10:00:04.000Z"))
            = S (length (analysisHistory s1)).
Proof.
  destruct (analysis_completes Sample.roomy Sample.onePending "img_1")
    as (s1 & k & Hcall & Hobj & Helt & _ & Hdone).
  - vm_compute. reflexivity.
  - vm_compute. eexists. reflexivity.
  - exists s1, k. split; [exact Hcall|].
    apply (Hdone s1 (3 # 4) (1 # 2) "2024-05-01T10:00:04.000Z" Hobj Helt).
    + split; [discriminate | reflexivity].
    + split; [discriminate | reflexivity].
Defined.

(** C1, as written, fails: the entry [img_1] of the sample run is
    authorized and the history has one item; [analyzeImage] on it does not
    return at once but sets it to analyzing and goes ahead, and the
    completion of that call appends a second history item. *)
Lemma analyzeImage_reruns_authorized :
  img_status <$> uploadedImages_get Sample.oneAuthorized "img_1" = Some Authorized
  /\ length (analysisHistory Sample.oneAuthorized) = 1%nat
  /\ exists s1 k,
       analyzeImage Sample.oneAuthorized "img_1" = Awaiting s1 k
       /\ img_status <$> uploadedImages_get s1 "img_1" = Some Analyzing
       /\ length (analysisHistory
                    (analyzeImage_resume Sample.roomy s1 k Fulfilled (1 # 4) (9 # 10)
                       "2024-05-01T10:01:00.000Z")) = 2%nat.
Proof.
  split; [reflexivity|]. split; [reflexivity|].
  eexists _, _. split; [reflexivity|]. split; reflexivity.
Qed.

(** C1, amended: the status of an entry that is authorized, unauthorized or
    error does not stop [analyzeImage].  When the element of the entry is in
    the document the call sets the entry to analyzing and goes ahead to the
    analysis call, and the successful completion of that call makes the
    entry authorized or unauthorized and appends one history item; when the
    element is not in the document the call returns at once with the state
    it was given. *)
Theorem analyzeImage_from_terminal (quota_ok : gmap string string -> bool)
    (s : State) (imageId : string) (st : Status) :
  img_status <$> uploadedImages_get s imageId = Some st ->
  terminal st ->
  (getElementById s imageId = None -> analyzeImage s imageId = Returned s)
  /\ (is_Some (getElementById s imageId) ->
      exists s1 k,
        analyzeImage s imageId = Awaiting s1 k
        /\ img_status <$> uploadedImages_get s1 imageId = Some Analyzing
        /\ analysisHistory s1 = analysisHistory s
        /\ forall (random1 random2 : Q) (now : string),
             (exists imageData,
                imageObjects
                  (analyzeImage_resume quota_ok s1 k Fulfilled random1 random2 now)
                  !! imageId = Some imageData
                /\ (img_status imageData = Authorized
                    \/ img_status imageData = Unauthorized))
             /\ length (analysisHistory
                          (analyzeImage_resume quota_ok s1 k Fulfilled random1 random2 now))
                = S (length (analysisHistory s))).
Proof.
  intros Hst Hterm. split; [apply analyzeImage_no_element|]. intros Hel.
  destruct (analyzeImage_proceeds s imageId st Hst) as
    (s1 & k & Hcall & Hk & Han & Hobj & Helt & Hhist & _);
    [by destruct Hterm as [->|[->| ->]] | done |].
  exists s1, k. subst imageId. repeat (split; [done|]).
  intros random1 random2 now.
  destruct (analyzeImage_resume_fulfilled quota_ok s1 k random1 random2 now Hobj Helt)
    as (d & item & Hd & Hs & _ & Hh & _).
  split.
  - exists d. split; [done|]. rewrite Hs. apply verdict_cases.
  - by rewrite Hh, Hhist.
Qed.

Lemma analyzeImage_from_terminal_witness :
  exists s1 k,
    analyzeImage Sample.oneAuthorized "img_1" = Awaiting s1 k
    /\ img_status <$> uploadedImages_get s1 "img_1" = Some Analyzing
    /\ analysisHistory s1 = analysisHistory Sample.oneAuthorized.
Proof.
  destruct (analyzeImage_from_terminal Sample.roomy Sample.oneAuthorized "img_1"
              Authorized) as [_ Hgo].
  - vm_compute. reflexivity.
  - left. reflexivity.
  - destruct Hgo as (s1 & k & Hcall & Han & Hhist & _).
    + vm_compute. eexists. reflexivity.
    + exists s1, k. auto.
Defined.

(** * Further properties *)

(** ** JSON texts read back *)

(** *** Strings *)

Lemma readString_escapeChar c t :
  Json.readString (Json.escapeChar c +:+ t) = Json.consChar c (Json.readString t).
Proof. destruct c as [[] [] [] [] [] [] [] []]; reflexivity. Qed.

Lemma readString_escape s rest :
  Json.readString (Json.escape s +:+ Json.DQ +:+ rest) = Some (s, rest).
Proof.
  induction s as [|c s IH]; [done|].
  cbn [Json.escape]. rewrite append_assoc, readString_escapeChar, IH. done.
Qed.

Lemma readValue_quote fuel s rest :
  Json.readValue (S fuel) (Json.quote s +:+ rest) = Some (JStr s, rest).
Proof.
  unfold Json.quote. rewrite !append_assoc. unfold Json.DQ at 1.
  rewrite append_cons, append_nil. cbn [Json.readValue Json.skipWs].
  change (Json.isWs (ascii_of_N 34)) with false. cbv iota.
  change (JS.code (ascii_of_N 34) =? 34)%N with true. cbv iota.
  by rewrite readString_escape.
Qed.

(** *** Literals *)

Lemma substring_all s : String.substring 0 (String.length s) s = s.
Proof. induction s as [|c s IH]; [done|]. cbn. by rewrite IH. Qed.

Lemma startsWith_append lit rest : JS.startsWith (lit +:+ rest) lit = true.
Proof.
  induction lit as [|c lit IH]; [by destruct rest|].
  rewrite append_cons. cbn [JS.startsWith]. by rewrite decide_True.
Qed.

Lemma substring_append lit rest :
  String.substring (String.length lit)
    (String.length (lit +:+ rest) - String.length lit) (lit +:+ rest) = rest.
Proof.
  induction lit as [|c lit IH].
  - rewrite append_nil. cbn [String.length]. rewrite Nat.sub_0_r. apply substring_all.
  - rewrite append_cons. cbn [String.length String.substring Nat.sub]. apply IH.
Qed.

Lemma readLiteral_append lit v rest : Json.readLiteral lit v (lit +:+ rest) = Some (v, rest).
Proof. unfold Json.readLiteral. by rewrite startsWith_append, substring_append. Qed.

Lemma readValue_bool fuel b rest :
  Json.readValue (S fuel) (Json.bool_text b +:+ rest) = Some (JBool b, rest).
Proof.
  destruct b.
  - transitivity (Json.readLiteral "true" (JBool true) ("true" +:+ rest));
      [reflexivity | apply readLiteral_append].
  - transitivity (Json.readLiteral "false" (JBool false) ("false" +:+ rest));
      [reflexivity | apply readLiteral_append].
Qed.

(** *** Numbers *)

Lemma pretty_N_char_digit d :
  (d < 10)%N ->
  Json.isDigit (pretty_N_char d) = true
  /\ JS.code (pretty_N_char d) = (48 + d)%N.
Proof.
  intros Hd.
  assert (d = 0 \/ d = 1 \/ d = 2 \/ d = 3 \/ d = 4 \/ d = 5 \/ d = 6 \/ d = 7
          \/ d = 8 \/ d = 9)%N as H by lia.
  repeat (destruct H as [->|H]; [done|]). by subst.
Qed.

Lemma pretty_N_go_append x s r : pretty_N_go x s +:+ r = pretty_N_go x (s +:+ r).
Proof.
  revert s. induction (N.lt_wf_0 x) as [x _ IH]; intros s.
  assert (x = 0 \/ 0 < x)%N as [->|Hx] by lia; [by rewrite !pretty_N_go_0|].
  rewrite (pretty_N_go_step x s), (pretty_N_go_step x (s +:+ r)) by done.
  rewrite IH by (by apply N.div_lt).
  by rewrite append_cons.
Qed.

Lemma readDigits_pretty_N_go x :
  exists k : Z, 0 <= k /\ forall a s,
    Json.readDigits a (pretty_N_go x s) = Json.readDigits (a * 10 ^ k + Z.of_N x) s.
Proof.
  induction (N.lt_wf_0 x) as [x _ IH].
  assert (x = 0 \/ 0 < x)%N as [->|Hx] by lia.
  - exists 0. split; [done|]. intros a s. rewrite pretty_N_go_0. f_equal. lia.
  - destruct (IH (x `div` 10)%N) as (k & Hk & Hread); [by apply N.div_lt|].
    exists (k + 1). split; [lia|]. intros a s.
    rewrite (pretty_N_go_step x s), Hread by done.
    destruct (pretty_N_char_digit (x `mod` 10)%N) as [Hd Hc];
      [by apply N.mod_lt|].
    cbn [Json.readDigits]. rewrite Hd, Hc. f_equal.
    rewrite Z.pow_add_r by lia. change (10 ^ 1) with 10.
    rewrite N.add_comm, N.add_sub.
    rewrite (N.div_mod x 10) at 3 by done. rewrite N2Z.inj_add, N2Z.inj_mul.
    change (Z.of_N 10) with 10. ring.
Qed.

Lemma readDigits_end acc rest : endsNumber rest -> Json.readDigits acc rest = (acc, rest).
Proof.
  destruct rest as [|d rest]; [done|]. cbn [endsNumber Json.readDigits]. intros H.
  by destruct (Json.isDigit d).
Qed.

Lemma pretty_N_go_head x s :
  (0 < x)%N ->
  exists c s', pretty_N_go x s = String c s'
    /\ Json.isDigit c = true /\ (JS.code c =? 48)%N = false.
Proof.
  revert s. induction (N.lt_wf_0 x) as [x _ IH]; intros s Hx.
  rewrite (pretty_N_go_step x s) by done.
  destruct (N.eq_0_gt_0_cases (x `div` 10)) as [H0|Hpos].
  - rewrite H0, pretty_N_go_0.
    destruct (pretty_N_char_digit (x `mod` 10)%N) as [Hd Hc]; [by apply N.mod_lt|].
    eexists _, _. split; [done|]. split; [done|]. rewrite Hc. apply N.eqb_neq.
    pose proof (N.div_mod x 10 ltac:(done)) as Hx10. rewrite H0 in Hx10.
    generalize dependent (x `mod` 10)%N. intros. lia.
  - apply IH; [by apply N.div_lt | done].
Qed.

Lemma readNatural_pretty_N_go x rest :
  (0 < x)%N -> endsNumber rest ->
  Json.readNatural (pretty_N_go x rest) = Some (Z.of_N x, rest).
Proof.
  intros Hx Hend. destruct (pretty_N_go_head x rest Hx) as (c & s' & Heq & Hd & H48).
  unfold Json.readNatural. rewrite Heq, Hd, H48, <- Heq.
  destruct (readDigits_pretty_N_go x) as (k & _ & ->).
  rewrite readDigits_end by done. cbn [Z.mul Z.add].
  destruct rest as [|d rest]; [done|]. cbn [endsNumber] in Hend. by rewrite Hend.
Qed.

Lemma isDigit_tests c :
  Json.isDigit c = true ->
  Json.isWs c = false
  /\ (JS.code c =? 34)%N = false /\ (JS.code c =? 91)%N = false
  /\ (JS.code c =? 123)%N = false /\ (JS.code c =? 45)%N = false.
Proof.
  unfold Json.isDigit, Json.isWs. intros [H1 H2]%andb_prop.
  apply N.leb_le in H1, H2.
  repeat split; repeat (apply orb_false_intro); apply N.eqb_neq; lia.
Qed.

Lemma readValue_digit fuel c s :
  Json.isDigit c = true ->
  Json.readValue (S fuel) (String c s)
  = match Json.readNatural (String c s) with
    | Some (k, rest) => Some (JNum k, rest)
    | None => None
    end.
Proof.
  intros Hd. destruct (isDigit_tests c Hd) as (Hw & H34 & H91 & H123 & H45).
  cbn [Json.readValue Json.skipWs]. by rewrite Hw, H34, H91, H123, H45, Hd.
Qed.

Lemma readValue_N fuel (n : N) rest :
  endsNumber rest ->
  Json.readValue (S fuel) (pretty n +:+ rest) = Some (JNum (Z.of_N n), rest).
Proof.
  intros Hend. unfold pretty, pretty_N. case_decide as Hn.
  - subst n. rewrite append_cons, append_nil, readValue_digit by done.
    unfold Json.readNatural. change (Json.isDigit "0") with true.
    change (JS.code "0" =? 48)%N with true. cbv iota.
    destruct rest as [|d rest]; [done|]. cbn [endsNumber] in Hend. by rewrite Hend.
  - rewrite pretty_N_go_append, append_nil.
    assert (0 < n)%N as Hpos by lia.
    destruct (pretty_N_go_head n rest Hpos) as (c & s' & Heq & Hd & _).
    rewrite Heq, readValue_digit, <- Heq by done.
    by rewrite readNatural_pretty_N_go.
Qed.

Lemma readValue_Z fuel (z : Z) rest :
  endsNumber rest ->
  Json.readValue (S fuel) (pretty z +:+ rest) = Some (JNum z, rest).
Proof.
  intros Hend. destruct z as [|p|p].
  - apply (readValue_N fuel 0%N rest Hend).
  - apply (readValue_N fuel (Npos p) rest Hend).
  - change (pretty (Z.neg p)) with ("-" +:+ pretty (Npos p)).
    rewrite append_assoc, append_cons, append_nil.
    cbn [Json.readValue Json.skipWs].
    change (Json.isWs "-") with false. cbv iota.
    change (JS.code "-" =? 34)%N with false. change (JS.code "-" =? 91)%N with false.
    change (JS.code "-" =? 123)%N with false. change (JS.code "-" =? 45)%N with true.
    cbv iota.
    unfold pretty, pretty_N. rewrite decide_False by done.
    rewrite pretty_N_go_append, append_nil, readNatural_pretty_N_go by done.
    reflexivity.
Qed.

(** *** Objects *)

Lemma readString_quote key rest :
  exists tail, Json.quote key +:+ rest = String (ascii_of_N 34) tail
    /\ Json.readString tail = Some (key, rest).
Proof.
  exists (Json.escape key +:+ Json.DQ +:+ rest). split.
  - unfold Json.quote, Json.DQ. by rewrite !append_assoc, append_cons, append_nil.
  - apply readString_escape.
Qed.

(** A property and the text after it: a comma and more properties, or the
    closing brace. *)
Lemma readMembers_more fuel key text v more ps rest :
  Json.readValue fuel (text +:+ "," +:+ more) = Some (v, "," +:+ more) ->
  Json.readMembers fuel more = Some (ps, rest) ->
  Json.readMembers (S fuel) (Json.prop key text +:+ "," +:+ more)
  = Some ((key, v) :: ps, rest).
Proof.
  intros Hv Hps. unfold Json.prop. rewrite !append_assoc.
  destruct (readString_quote key (":" +:+ text +:+ "," +:+ more)) as (tail & -> & Htail).
  cbn [Json.readMembers Json.skipWs].
  change (Json.isWs (ascii_of_N 34)) with false. cbv iota.
  change (JS.code (ascii_of_N 34) =? 34)%N with true. cbv iota.
  rewrite Htail, append_cons, append_nil. cbn [Json.skipWs].
  change (Json.isWs ":") with false. cbv iota.
  change (JS.code ":" =? 58)%N with true. cbv iota.
  rewrite Hv, append_cons, append_nil. cbn [Json.skipWs].
  change (Json.isWs ",") with false. cbv iota.
  change (JS.code "," =? 125)%N with false. change (JS.code "," =? 44)%N with true.
  cbv iota. by rewrite Hps.
Qed.

Lemma readMembers_last fuel key text v rest :
  Json.readValue fuel (text +:+ "}" +:+ rest) = Some (v, "}" +:+ rest) ->
  Json.readMembers (S fuel) (Json.prop key text +:+ "}" +:+ rest)
  = Some ([(key, v)], rest).
Proof.
  intros Hv. unfold Json.prop. rewrite !append_assoc.
  destruct (readString_quote key (":" +:+ text +:+ "}" +:+ rest)) as (tail & -> & Htail).
  cbn [Json.readMembers Json.skipWs].
  change (Json.isWs (ascii_of_N 34)) with false. cbv iota.
  change (JS.code (ascii_of_N 34) =? 34)%N with true. cbv iota.
  rewrite Htail, append_cons, append_nil. cbn [Json.skipWs].
  change (Json.isWs ":") with false. cbv iota.
  change (JS.code ":" =? 58)%N with true. cbv iota.
  rewrite Hv, append_cons, append_nil. cbn [Json.skipWs].
  change (Json.isWs "}") with false. cbv iota.
  change (JS.code "}" =? 125)%N with true. cbv iota. reflexivity.
Qed.

Lemma readValue_object fuel key text more ps rest :
  Json.readMembers fuel (Json.prop key text +:+ more) = Some (ps, rest) ->
  Json.readValue (S fuel) ("{" +:+ Json.prop key text +:+ more) = Some (JObj ps, rest).
Proof.
  rewrite (append_cons "{"), append_nil. unfold Json.prop. rewrite !append_assoc.
  destruct (readString_quote key (":" +:+ text +:+ more)) as (tail & -> & _).
  intros Hps. cbn [Json.readValue Json.skipWs].
  change (Json.isWs "{") with false. cbv iota.
  change (JS.code "{" =? 34)%N with false. change (JS.code "{" =? 91)%N with false.
  change (JS.code "{" =? 123)%N with true. cbv iota. cbn [Json.skipWs].
  change (Json.isWs (ascii_of_N 34)) with false. cbv iota.
  change (JS.code (ascii_of_N 34) =? 125)%N with false. cbv iota.
  by rewrite Hps.
Qed.

(** *** The settings *)

Lemma readValue_stringifySettings fuel st rest :
  Json.readValue (6 + fuel) (Json.stringifySettings st +:+ rest)
  = Some (jvalOfSettings st, rest).
Proof.
  unfold Json.stringifySettings. rewrite !append_assoc.
  apply readValue_object.
  apply readMembers_more; [apply readValue_quote|].
  apply readMembers_more; [apply readValue_bool|].
  apply readMembers_more; [by apply readValue_Z|].
  apply readMembers_last. apply readValue_bool.
Qed.

Lemma length_stringifySettings st :
  exists n, String.length (Json.stringifySettings st) = S (S n).
Proof.
  unfold Json.stringifySettings, Json.prop, Json.quote, Json.DQ.
  rewrite !append_assoc, !append_cons. by eexists.
Qed.

(** The text of the settings parses to the object with their four
    properties. *)
Lemma parse_stringifySettings st :
  Json.parse (Json.stringifySettings st) = Some (jvalOfSettings st).
Proof.
  unfold Json.parse. destruct (length_stringifySettings st) as [n ->].
  replace (2 * S (S n) + 2)%nat with (6 + 2 * n)%nat by lia.
  rewrite <- (append_empty_r (Json.stringifySettings st)) at 1.
  by rewrite readValue_stringifySettings.
Qed.

(** *** The history *)

Lemma readValue_stringifyHistoryItem fuel item rest :
  Json.readValue (8 + fuel) (Json.stringifyHistoryItem item +:+ rest)
  = Some (jvalOfHistoryItem item, rest).
Proof.
  unfold Json.stringifyHistoryItem, jvalOfHistoryItem.
  destruct (h_confidence item) as [c|], (h_date item) as [d|];
    cbn [Json.optionalProp app]; rewrite !append_assoc, ?append_nil;
    apply readValue_object;
    repeat (apply readMembers_more; [apply readValue_quote|]);
    apply readMembers_last; by apply readValue_N.
Qed.

Lemma stringifyHistoryItem_head item rest :
  exists tail, Json.stringifyHistoryItem item +:+ rest = String "{" tail.
Proof. unfold Json.stringifyHistoryItem. rewrite !append_assoc, append_cons. by eexists. Qed.

Lemma readElements_join fuel history rest :
  history <> [] ->
  (length history + 8 <= fuel)%nat ->
  Json.readElements fuel
    (JS.join "," (map Json.stringifyHistoryItem history) +:+ "]" +:+ rest)
  = Some (map jvalOfHistoryItem history, rest).
Proof.
  revert fuel. induction history as [|item [|item2 more] IH]; intros fuel Hne Hfuel; [done| |].
  - destruct fuel as [|fuel]; [cbn in Hfuel; lia|]. cbn [map JS.join Json.readElements].
    replace fuel with (8 + (fuel - 8))%nat by (cbn in Hfuel; lia).
    rewrite readValue_stringifyHistoryItem, append_cons, append_nil. cbn [Json.skipWs].
    change (Json.isWs "]") with false. cbv iota.
    change (JS.code "]" =? 93)%N with true. cbv iota. reflexivity.
  - destruct fuel as [|fuel]; [cbn in Hfuel; lia|].
    cbn [map]. rewrite join_cons_cons. cbn [Json.readElements].
    rewrite !append_assoc.
    replace fuel with (8 + (fuel - 8))%nat at 1 by (cbn in Hfuel; lia).
    rewrite readValue_stringifyHistoryItem, append_cons, append_nil. cbn [Json.skipWs].
    change (Json.isWs ",") with false. cbv iota.
    change (JS.code "," =? 93)%N with false. change (JS.code "," =? 44)%N with true.
    cbv iota.
    change (Json.stringifyHistoryItem item2 :: map Json.stringifyHistoryItem more)
      with (map Json.stringifyHistoryItem (item2 :: more)).
    rewrite IH; [done | done | cbn [length] in *; lia].
Qed.

Lemma readValue_array fuel body tail xs rest :
  body = String "{" tail ->
  Json.readElements fuel body = Some (xs, rest) ->
  Json.readValue (S fuel) ("[" +:+ body) = Some (JArr xs, rest).
Proof.
  intros -> Hxs. rewrite append_cons, append_nil. cbn [Json.readValue Json.skipWs].
  change (Json.isWs "[") with false. cbv iota.
  change (JS.code "[" =? 34)%N with false. change (JS.code "[" =? 91)%N with true.
  cbv iota. cbn [Json.skipWs]. change (Json.isWs "{") with false. cbv iota.
  change (JS.code "{" =? 93)%N with false. cbv iota. by rewrite Hxs.
Qed.

Lemma length_append (s t : string) :
  String.length (s +:+ t) = (String.length s + String.length t)%nat.
Proof. induction s as [|c s IH]; [done|]. rewrite append_cons. cbn. by rewrite IH. Qed.

Lemma length_stringifyHistoryItem item :
  exists n, String.length (Json.stringifyHistoryItem item) = S (S (S (S n))).
Proof.
  unfold Json.stringifyHistoryItem, Json.prop, Json.quote, Json.DQ.
  rewrite !append_assoc, !append_cons. by eexists.
Qed.

Lemma length_join history :
  (4 * length history
   <= String.length (JS.join "," (map Json.stringifyHistoryItem history)))%nat.
Proof.
  induction history as [|item [|item2 more] IH]; [done| |].
  - cbn [map JS.join length]. destruct (length_stringifyHistoryItem item) as [n ->]. lia.
  - cbn [map]. rewrite join_cons_cons, !length_append.
    destruct (length_stringifyHistoryItem item) as [n ->].
    cbn [map length] in *. lia.
Qed.

(** The text of a history parses to the array of its items. *)
Lemma parse_stringifyHistory history :
  Json.parse (Json.stringifyHistory history) = Some (jvalOfHistory history).
Proof.
  destruct (decide (history = [])) as [->|Hne]; [reflexivity|].
  unfold Json.parse, Json.stringifyHistory, jvalOfHistory.
  pose proof (length_join history) as Hlen.
  assert (0 < length history)%nat as Hpos by (destruct history; [done | cbn; lia]).
  rewrite !length_append. cbn [String.length].
  set (text := JS.join "," (map Json.stringifyHistoryItem history)) in *.
  replace (2 * (1 + (String.length text + 1)) + 2)%nat
    with (S (2 * String.length text + 5)) by lia.
  destruct history as [|item more]; [done|].
  destruct (stringifyHistoryItem_head item
              (match more with
               | [] => EmptyString
               | _ => "," +:+ JS.join "," (map Json.stringifyHistoryItem more)
               end +:+ "]")) as [tail Htail].
  rewrite <- (append_empty_r "]").
  rewrite (readValue_array _ _ tail (map jvalOfHistoryItem (item :: more)) EmptyString).
  - done.
  - rewrite <- Htail. subst text. destruct more; cbn [map JS.join];
      by rewrite ?append_assoc, ?append_nil.
  - subst text. apply readElements_join; [done | lia].
Qed.

(** ** Persistence across a reload *)

Lemma stringifySettings_not_empty st : Json.stringifySettings st <> EmptyString.
Proof. unfold Json.stringifySettings. by rewrite append_cons. Qed.

Lemma spreadSettings_jvalOfSettings cur st :
  spreadSettings cur (jvalOfSettings st) = st.
Proof. by destruct st. Qed.

(** A page that starts over a store with the text of settings reads these
    settings. *)
Lemma loadSettings_reads_back (store : gmap string string) (st : Settings) :
  store !! "billboardAI_settings" = Some (Json.stringifySettings st) ->
  settings (loadSettings Json.parse (initialState store)) = st.
Proof.
  intros Hget.
  rewrite (loadSettings_parsed Json.parse _ (Json.stringifySettings st) (jvalOfSettings st)).
  - apply spreadSettings_jvalOfSettings.
  - exact Hget.
  - apply stringifySettings_not_empty.
  - apply parse_stringifySettings.
Qed.

(** X1: when the browser takes the write of [saveSettings] and the size
    limit is an integer it holds exactly, a new page that reads the store
    with [loadSettings] has the settings that were saved: the theme, the
    two switches and the size limit. *)
Theorem settings_survive_reload (quota_ok : gmap string string -> bool) (s : State) :
  quota_ok (<["billboardAI_settings" := Json.stringifySettings (settings s)]>
              (localStorage s)) = true ->
  safeInteger (maxFileSize (settings s)) ->
  settings (loadSettings Json.parse (initialState (localStorage (saveSettings quota_ok s))))
  = settings s.
Proof.
  intros Hq _. apply loadSettings_reads_back.
  unfold saveSettings, setItem. rewrite Hq. cbn. apply lookup_insert_eq.
Qed.

Lemma settings_survive_reload_witness :
  settings (loadSettings Json.parse
              (initialState (localStorage (saveSettings Sample.roomy More.dark))))
  = More.darkSettings.
Proof.
  apply (settings_survive_reload Sample.roomy More.dark).
  - reflexivity.
  - unfold safeInteger. cbn. lia.
Defined.

(** X2: whatever [JSON.parse] is and whatever the store holds,
    [loadSettings] changes nothing but the settings: the store, the user,
    the history and the toasts are as they were; and with no settings
    record, or an empty one, the whole state is. *)
Theorem loadSettings_frame (JSON_parse : string -> option JVal) (s : State) :
  localStorage (loadSettings JSON_parse s) = localStorage s
  /\ currentUser (loadSettings JSON_parse s) = currentUser s
  /\ analysisHistory (loadSettings JSON_parse s) = analysisHistory s
  /\ toasts (loadSettings JSON_parse s) = toasts s
  /\ (localStorage s !! "billboardAI_settings" = None
      \/ localStorage s !! "billboardAI_settings" = Some EmptyString ->
      loadSettings JSON_parse s = s).
Proof.
  unfold loadSettings.
  destruct (localStorage s !! "billboardAI_settings") as [text|] eqn:Hget.
  - destruct (decide (text = EmptyString)) as [->|Hne].
    + repeat split; done.
    + destruct (JSON_parse text); repeat split; try done.
      all: intros [H|H]; congruence.
  - repeat split; done.
Qed.

(** X3: a stored settings object is merged over the current settings: a
    property it does not have keeps its current value, a property it has
    (with the type of the setting) replaces it. *)
Theorem loadSettings_merges (JSON_parse : string -> option JVal) (s : State)
    (text : string) (props : list (string * JVal)) :
  localStorage s !! "billboardAI_settings" = Some text ->
  text <> EmptyString ->
  JSON_parse text = Some (JObj props) ->
  (getProp "theme" props = None ->
     theme (settings (loadSettings JSON_parse s)) = theme (settings s))
  /\ (getProp "notifications" props = None ->
        notifications (settings (loadSettings JSON_parse s)) = notifications (settings s))
  /\ (getProp "maxFileSize" props = None ->
        maxFileSize (settings (loadSettings JSON_parse s)) = maxFileSize (settings s))
  /\ (getProp "autoAnalyze" props = None ->
        autoAnalyze (settings (loadSettings JSON_parse s)) = autoAnalyze (settings s))
  /\ (forall t, getProp "theme" props = Some (JStr t) ->
        theme (settings (loadSettings JSON_parse s)) = t)
  /\ (forall b, getProp "notifications" props = Some (JBool b) ->
        notifications (settings (loadSettings JSON_parse s)) = b)
  /\ (forall n, getProp "maxFileSize" props = Some (JNum n) ->
        maxFileSize (settings (loadSettings JSON_parse s)) = n)
  /\ (forall b, getProp "autoAnalyze" props = Some (JBool b) ->
        autoAnalyze (settings (loadSettings JSON_parse s)) = b).
Proof.
  intros Hget Hne Hp.
  rewrite (loadSettings_parsed JSON_parse s text (JObj props) Hget Hne Hp). cbn.
  repeat split; intros; by simplify_option_eq.
Qed.

Lemma loadSettings_merges_witness :
  maxFileSize (settings (loadSettings Json.parse (initialState More.onlyMaxFileSize))) = 50
  /\ theme (settings (loadSettings Json.parse (initialState More.onlyMaxFileSize)))
     = "light".
Proof.
  destruct (loadSettings_merges Json.parse (initialState More.onlyMaxFileSize)
              ("{ " +:+ Json.DQ +:+ "maxFileSize" +:+ Json.DQ +:+ ": 50 }")
              [("maxFileSize", JNum 50)])
    as (Htheme & _ & _ & _ & _ & _ & Hmax & _).
  - reflexivity.
  - discriminate.
  - vm_compute. reflexivity.
  - split; [apply Hmax | apply Htheme]; reflexivity.
Defined.

Lemma loadUserData_other_keys (JSON_parse : string -> option JVal) (s : State) (key : string) :
  key <> "currentUser" ->
  localStorage (loadUserData JSON_parse s) !! key = localStorage s !! key.
Proof.
  intros Hkey. unfold loadUserData.
  destruct (localStorage s !! "currentUser") as [text|]; [|done].
  destruct (decide (text = EmptyString)); [done|].
  destruct (JSON_parse text); cbn; [done|]. by rewrite lookup_delete_ne.
Qed.

Lemma loadUserData_history (JSON_parse : string -> option JVal) (s : State) :
  analysisHistory (loadUserData JSON_parse s) = analysisHistory s.
Proof.
  unfold loadUserData.
  destruct (localStorage s !! "currentUser") as [text|]; [|done].
  destruct (decide (text = EmptyString)); [done|]. by destruct (JSON_parse text).
Qed.

(** X4: [loadUserData] changes nothing of the state but the user and the
    store, and nothing of the store but the record of the user: the state
    after it is the state before it with a user and a store put in, every
    other record of the store is as it was, the user changes only to what
    the stored record parses to, and the store changes only by the removal
    of a user record that does not parse. *)
Theorem loadUserData_frame (JSON_parse : string -> option JVal) (s : State) :
  loadUserData JSON_parse s
  = set_localStorage (localStorage (loadUserData JSON_parse s))
      (set_currentUser (currentUser (loadUserData JSON_parse s)) s)
  /\ (forall key, key <> "currentUser" ->
        localStorage (loadUserData JSON_parse s) !! key = localStorage s !! key)
  /\ (currentUser (loadUserData JSON_parse s) = currentUser s
      \/ exists text, localStorage s !! "currentUser" = Some text
                      /\ JSON_parse text = Some (currentUser (loadUserData JSON_parse s)))
  /\ (localStorage (loadUserData JSON_parse s) = localStorage s
      \/ exists text, localStorage s !! "currentUser" = Some text
                      /\ JSON_parse text = None
                      /\ localStorage (loadUserData JSON_parse s)
                         = delete "currentUser" (localStorage s)).
Proof.
  split; [|split; [apply loadUserData_other_keys|]].
  - unfold loadUserData.
    destruct (localStorage s !! "currentUser") as [text|]; [|by destruct s].
    destruct (decide (text = EmptyString)); [by destruct s|].
    destruct (JSON_parse text); by destruct s.
  - unfold loadUserData.
    destruct (localStorage s !! "currentUser") as [text|] eqn:Hget; [|by auto].
    destruct (decide (text = EmptyString)); [by auto|].
    destruct (JSON_parse text) as [user|] eqn:Hp; cbn.
    + split; [right; eauto | by left].
    + split; [by left | right; eauto].
Qed.

(** X5: after a confirmed logout there is no user in the store: a new page
    starts with no user, whatever [JSON.parse] is, and [processFiles]
    takes no file and only asks to sign in. *)
Theorem logout_ends_session (JSON_parse : string -> option JVal) (s : State)
    (files : list File) :
  currentUser (loadUserData JSON_parse (initialState (localStorage (handleLogout s true))))
  = JNull
  /\ processFiles_begin (handleLogout s true) files
     = ([], showToast (handleLogout s true) "Please sign in to upload images"
              ToastWarning).
Proof.
  split.
  - unfold loadUserData, handleLogout. cbn. by rewrite lookup_delete_eq.
  - reflexivity.
Qed.

(** X6: for every preferences form whose size limit [parseInt] reads as an
    integer the browser holds exactly, after [handleSettingsSubmit] the
    size limit in memory is not 0 and the theme is not empty; when the
    browser takes the write, the store differs from the old one in the
    settings record only, a new page reads the settings in memory back from
    it, and the toast is [Settings saved successfully!]; when the browser
    refuses the write, the store is untouched and the toast is
    [Failed to save settings]. *)
Theorem handleSettingsSubmit_settings (quota_ok : gmap string string -> bool)
    (s : State) (form : PreferencesForm) :
  match Builtin.parseInt (maxFileSizeInput form) with
  | Some n => safeInteger n
  | None => True
  end ->
  maxFileSize (settings (handleSettingsSubmit quota_ok s form)) <> 0
  /\ theme (settings (handleSettingsSubmit quota_ok s form)) <> EmptyString
  /\ (quota_ok (<["billboardAI_settings" :=
                    Json.stringifySettings (settings (handleSettingsSubmit quota_ok s form))]>
                  (localStorage s)) = true ->
      (forall key, key <> "billboardAI_settings" ->
         localStorage (handleSettingsSubmit quota_ok s form) !! key = localStorage s !! key)
      /\ is_Some (localStorage (handleSettingsSubmit quota_ok s form) !! "billboardAI_settings")
      /\ settings (loadSettings Json.parse
                     (initialState (localStorage (handleSettingsSubmit quota_ok s form))))
         = settings (handleSettingsSubmit quota_ok s form)
      /\ toasts (handleSettingsSubmit quota_ok s form)
         = toasts s ++ [mkToast "Settings saved successfully!" ToastSuccess])
  /\ (quota_ok (<["billboardAI_settings" :=
                    Json.stringifySettings (settings (handleSettingsSubmit quota_ok s form))]>
                  (localStorage s)) = false ->
      localStorage (handleSettingsSubmit quota_ok s form) = localStorage s
      /\ toasts (handleSettingsSubmit quota_ok s form)
         = toasts s ++ [mkToast "Failed to save settings" ToastError]).
Proof.
  intros _. unfold handleSettingsSubmit, saveSettings, setItem. cbn.
  destruct (quota_ok _) eqn:Hq; cbn.
  - split; [|split; [|split]].
    + destruct (Builtin.parseInt _) as [n|]; [|done].
      destruct (n =? 0) eqn:Hn; [done|]. by apply Z.eqb_neq.
    + destruct (themeSelect form) as [v|]; [|done]. by case_decide.
    + intros _. split; [|split; [|split]].
      * intros key Hkey. by apply lookup_insert_ne.
      * rewrite lookup_insert_eq. by eexists.
      * apply loadSettings_reads_back. apply lookup_insert_eq.
      * done.
    + intros Hf. cbn in Hq, Hf. congruence.
  - split; [|split; [|split]].
    + destruct (Builtin.parseInt _) as [n|]; [|done].
      destruct (n =? 0) eqn:Hn; [done|]. by apply Z.eqb_neq.
    + destruct (themeSelect form) as [v|]; [|done]. by case_decide.
    + intros Ht. cbn in Hq, Ht. congruence.
    + done.
Qed.

Lemma handleSettingsSubmit_settings_witness :
  maxFileSize (settings (handleSettingsSubmit Sample.roomy Sample.start More.form25)) <> 0
  /\ settings (loadSettings Json.parse
                 (initialState
                    (localStorage (handleSettingsSubmit Sample.roomy Sample.start More.form25))))
     = More.darkSettings.
Proof.
  pose proof (handleSettingsSubmit_settings Sample.roomy Sample.start More.form25) as H.
  destruct H as (Hmax & _ & Hsaved & _).
  - unfold safeInteger. vm_compute. split; reflexivity.
  - split; [exact Hmax|]. destruct Hsaved as (_ & _ & Hback & _); [reflexivity|].
    exact Hback.
Defined.

(** The form of the sample, and a form with an empty theme and limit 0. *)
Example handleSettingsSubmit_samples :
  settings (handleSettingsSubmit Sample.roomy Sample.start More.form25) = More.darkSettings
  /\ settings (handleSettingsSubmit More.full Sample.start More.formZero)
     = {| theme := "light"; notifications := false; maxFileSize := 10;
          autoAnalyze := false |}.
Proof. split; reflexivity. Qed.

(** ** The stored history *)

Lemma statusOfString_status_str st : statusOfString (status_str st) = Some st.
Proof. by destruct st. Qed.

Lemma historyItemOfJVal_jvalOfHistoryItem item :
  historyItemOfJVal (jvalOfHistoryItem item) = Some item.
Proof.
  destruct item as [i n st c d sz]. unfold jvalOfHistoryItem. cbn [h_id h_name h_status
    h_confidence h_date h_size app]. unfold historyItemOfJVal.
  rewrite !decide_True by done. rewrite statusOfString_status_str.
  assert (forall d, readDateSize
            (match d with Some x => [("date", JStr x)] | None => [] end
             ++ [("size", JNum (Z.of_N sz))]) = Some (d, sz)) as Hds.
  { intros [x|]; cbn; rewrite ?decide_True by done.
    all: destruct (0 <=? Z.of_N sz) eqn:Hz; [by rewrite N2Z.id | apply Z.leb_gt in Hz; lia]. }
  pose proof (Hds d) as Hd.
  destruct c as [c|]; cbn [app].
  - rewrite decide_True by done. by rewrite Hd.
  - destruct d as [x|]; cbn [app] in *.
    + rewrite decide_False by done. by rewrite Hd.
    + by rewrite Hd.
Qed.

(** Reading back what is written gives the history. *)
Lemma historyOfJVal_jvalOfHistory history :
  historyOfJVal (jvalOfHistory history) = Some history.
Proof.
  unfold historyOfJVal, jvalOfHistory.
  induction history as [|item rest IH]; [done|].
  cbn [map historyItemsOfJVals].
  by rewrite historyItemOfJVal_jvalOfHistoryItem, IH.
Qed.

Lemma stringifyHistory_not_empty history : Json.stringifyHistory history <> EmptyString.
Proof. unfold Json.stringifyHistory. by rewrite append_cons. Qed.

(** A page that starts over a store with the text of a history has that
    history. *)
Lemma init_reads_history (store : gmap string string) (history : list HistoryItem) :
  store !! "billboardAI_history" = Some (Json.stringifyHistory history) ->
  exists s, init Json.parse store = Some s /\ analysisHistory s = history.
Proof.
  intros Hget. unfold init, loadAnalysisHistory.
  assert (localStorage (loadSettings Json.parse (loadUserData Json.parse (initialState store)))
            !! "billboardAI_history" = Some (Json.stringifyHistory history)) as ->.
  { assert (forall s, localStorage (loadSettings Json.parse s) = localStorage s) as ->.
    { intros s. unfold loadSettings.
      destruct (localStorage s !! "billboardAI_settings") as [t|]; [|done].
      destruct (decide (t = EmptyString)); [done|]. by destruct (Json.parse t). }
    by rewrite loadUserData_other_keys. }
  rewrite decide_False by apply stringifyHistory_not_empty.
  rewrite parse_stringifyHistory, historyOfJVal_jvalOfHistory.
  eexists. split; [reflexivity|]. done.
Qed.

(** X7: when an analysis completes, the history in memory gets, in front,
    an item with the id, the name and the size of the entry, whatever the
    browser does with the write.  When the browser takes the write (the
    sizes being integers it holds exactly), the store differs from the old
    one in the history record only, and a new page that starts over it has
    the history in memory; when the browser refuses the write, the store is
    left as it was. *)
Theorem completion_persists (quota_ok : gmap string string -> bool)
    (s : State) (k : Suspended) (random1 random2 : Q) (now : string)
    (imageData : ImageData) :
  imageObjects s !! k_imageId k = Some imageData ->
  is_Some (elementObjects s !! k_imageId k) ->
  safeSizes (analysisHistory s) ->
  safeInteger (Z.of_N (img_size imageData)) ->
  exists item,
    analysisHistory (analyzeImage_resume quota_ok s k Fulfilled random1 random2 now)
    = item :: analysisHistory s
    /\ h_id item = img_id imageData
    /\ h_name item = img_name imageData
    /\ h_size item = img_size imageData
    /\ (quota_ok (<["billboardAI_history" :=
                      Json.stringifyHistory (item :: analysisHistory s)]>
                    (localStorage s)) = true ->
        (forall key, key <> "billboardAI_history" ->
           localStorage (analyzeImage_resume quota_ok s k Fulfilled random1 random2 now) !! key
           = localStorage s !! key)
        /\ exists s2,
             init Json.parse
               (localStorage (analyzeImage_resume quota_ok s k Fulfilled random1 random2 now))
             = Some s2
             /\ analysisHistory s2 = item :: analysisHistory s)
    /\ (quota_ok (<["billboardAI_history" :=
                      Json.stringifyHistory (item :: analysisHistory s)]>
                    (localStorage s)) = false ->
        localStorage (analyzeImage_resume quota_ok s k Fulfilled random1 random2 now)
        = localStorage s).
Proof.
  intros Hd [e He] _ _. unfold analyzeImage_resume. rewrite Hd, He.
  unfold updateStats, showToast, addToHistory, updateHistory, saveAnalysisHistory,
    setItem.
  cbn. eexists. destruct (quota_ok _) eqn:Hq; cbn.
  - split; [reflexivity|]. cbn. repeat (split; [reflexivity|]). split.
    + intros _. split.
      * intros key Hkey. by apply lookup_insert_ne.
      * apply init_reads_history. apply lookup_insert_eq.
    + intros Hf. cbn in Hq, Hf. congruence.
  - split; [reflexivity|]. cbn. repeat (split; [reflexivity|]). split.
    + intros Ht. cbn in Hq, Ht. congruence.
    + done.
Qed.

Lemma completion_persists_witness :
  exists item,
    analysisHistory
      (analyzeImage_resume Sample.roomy Sample.oneAnalyzing Sample.call1 Fulfilled
         (3 # 4) (1 # 2) "2024-05-01T10:00:04.000Z")
    = item :: analysisHistory Sample.oneAnalyzing
    /\ h_id item = "img_1"
    /\ exists s2,
         init Json.parse
           (localStorage
              (analyzeImage_resume Sample.roomy Sample.oneAnalyzing Sample.call1 Fulfilled
                 (3 # 4) (1 # 2) "2024-05-01T10:00:04.000Z")) = Some s2
         /\ analysisHistory s2 = item :: analysisHistory Sample.oneAnalyzing.
Proof.
  destruct (completion_persists Sample.roomy Sample.oneAnalyzing Sample.call1 (3 # 4) (1 # 2)
              "2024-05-01T10:00:04.000Z"
              {| img_id := "img_1"; img_name := file_name Sample.png2MB;
                 img_url := "data:image/png;base64,iVBORw0KGgo=";
                 img_status := Analyzing;
                 img_uploadTime := "2024-05-01T10:00:00.000Z";
                 img_size := file_size Sample.png2MB;
                 img_confidence := None; img_analyzedAt := None |})
    as (item & Hhist & Hid & _ & _ & Hsaved & _).
  - vm_compute. reflexivity.
  - vm_compute. eexists. reflexivity.
  - unfold safeSizes.
    replace (analysisHistory Sample.oneAnalyzing) with (@nil HistoryItem)
      by (vm_compute; reflexivity).
    constructor.
  - unfold safeInteger. cbn. lia.
  - exists item. split; [exact Hhist|]. split; [exact Hid|].
    destruct Hsaved as [_ Hback]; [reflexivity | exact Hback].
Defined.

(** X8: a store whose history record is the text of a history starts the
    application with that history: [init] gives a state whose history, whose
    history table and whose counters are those of the stored history. *)
Theorem history_survives_reload (JSON_parse : string -> option JVal)
    (store : gmap string string) (history : list HistoryItem) :
  store !! "billboardAI_history" = Some (Json.stringifyHistory history) ->
  JSON_parse (Json.stringifyHistory history) = Some (jvalOfHistory history) ->
  exists s,
    init JSON_parse store = Some s
    /\ analysisHistory s = history
    /\ historyRows s = history
    /\ statCounters s = stats history.
Proof.
  intros Hget Hp. unfold init, loadAnalysisHistory.
  assert (localStorage (loadSettings JSON_parse (loadUserData JSON_parse (initialState store)))
            !! "billboardAI_history" = Some (Json.stringifyHistory history)) as ->.
  { assert (forall s, localStorage (loadSettings JSON_parse s) = localStorage s) as ->.
    { intros s. unfold loadSettings.
      destruct (localStorage s !! "billboardAI_settings") as [t|]; [|done].
      destruct (decide (t = EmptyString)); [done|]. by destruct (JSON_parse t). }
    by rewrite loadUserData_other_keys. }
  rewrite decide_False by apply stringifyHistory_not_empty.
  rewrite Hp, historyOfJVal_jvalOfHistory.
  eexists. split; [reflexivity|]. done.
Qed.

Lemma history_survives_reload_witness :
  exists s,
    init Json.parse (localStorage Sample.oneAuthorized) = Some s
    /\ analysisHistory s = analysisHistory Sample.oneAuthorized
    /\ historyRows s = analysisHistory Sample.oneAuthorized
    /\ statCounters s = stats (analysisHistory Sample.oneAuthorized).
Proof.
  apply (history_survives_reload Json.parse (localStorage Sample.oneAuthorized)
           (analysisHistory Sample.oneAuthorized)).
  - vm_compute. reflexivity.
  - vm_compute. reflexivity.
Defined.

(** A history record that does not parse is kept in the store and the
    application starts with an empty history. *)
Lemma loadAnalysisHistory_unparsable (JSON_parse : string -> option JVal) (s : State)
    (text : string) :
  localStorage s !! "billboardAI_history" = Some text ->
  JSON_parse text = None ->
  loadAnalysisHistory JSON_parse s = Some s.
Proof.
  intros Hget Hp. unfold loadAnalysisHistory. rewrite Hget.
  destruct (decide (text = EmptyString)); [done|]. by rewrite Hp.
Qed.

(** ** Validation of a batch *)

Lemma maxSize_set_toasts t s : maxSize (set_toasts t s) = maxSize s.
Proof. reflexivity. Qed.

Lemma length_omap_filter (s : State) (files : list File) :
  (length (filter (λ f, accepts s f = true) files)
   + length (omap (rejection s) files) = length files)%nat.
Proof.
  induction files as [|f files IH]; [done|].
  rewrite filter_cons. cbn [omap list_omap]. fold (omap (rejection s) files).
  assert ((accepts s f = true /\ rejection s f = None)
          \/ (accepts s f = false /\ exists t, rejection s f = Some t)) as Hcase.
  { unfold accepts, rejection.
    destruct (JS.arrayIncludes allowedTypes (file_type f)); cbn; [|eauto].
    destruct (Z.of_N (file_size f) >? maxSize s); cbn; eauto. }
  destruct Hcase as [[Ha Hr]|[Ha [t Hr]]]; rewrite Hr.
  - rewrite decide_True by done. cbn [length]. lia.
  - rewrite decide_False by (rewrite Ha; done). cbn [length]. lia.
Qed.

(** X9: [validateFiles] keeps or refuses every file of the batch on its
    own: the files kept are files of the batch in the order of the batch,
    every other file gets exactly one toast, so the files kept and the new
    toasts are together as many as the files; nothing but the toasts
    changes in the application. *)
Theorem validateFiles_partition (s : State) (files : list File) :
  (validateFiles s files).1 `sublist_of` files
  /\ (length (validateFiles s files).1 + length (toasts (validateFiles s files).2)
      = length files + length (toasts s))%nat
  /\ (validateFiles s files).2 = set_toasts (toasts (validateFiles s files).2) s.
Proof.
  rewrite validateFiles_spec. cbn [fst snd]. split; [apply sublist_filter|].
  split; [|done].
  change (toasts (set_toasts ?t s)) with t.
  rewrite length_app. pose proof (length_omap_filter s files). lia.
Qed.

(** X10: validating a batch is validating its parts one after the other: a
    refused file does not stop the files after it. *)
Theorem validateFiles_app (s : State) (files1 files2 : list File) :
  validateFiles s (files1 ++ files2)
  = ((validateFiles s files1).1 ++ (validateFiles (validateFiles s files1).2 files2).1,
     (validateFiles (validateFiles s files1).2 files2).2).
Proof.
  rewrite !validateFiles_spec. cbn.
  rewrite filter_app, omap_app, app_assoc. reflexivity.
Qed.

(** X11: the type is tested before the size: a file whose type is not
    allowed gets the toast of the type alone, whatever its size. *)
Theorem validateFiles_type_first (s : State) (f : File) :
  file_type f ∉ allowedTypes ->
  validateFiles s [f]
  = ([], showToast s (file_name f +:+ ": Unsupported file type") ToastError).
Proof.
  intros Hty. apply arrayIncludes_false in Hty.
  unfold validateFiles. cbn. by rewrite Hty.
Qed.

Lemma validateFiles_type_first_witness :
  validateFiles Sample.start [mkFile "scan.pdf" 99999999999 "application/pdf"]
  = ([], showToast Sample.start "scan.pdf: Unsupported file type" ToastError).
Proof.
  apply (validateFiles_type_first Sample.start
           (mkFile "scan.pdf" 99999999999 "application/pdf")).
  apply arrayIncludes_false. reflexivity.
Defined.

(** X12: [processFiles] takes files only from a signed-in user: with no
    user it takes none, whatever the batch, and only asks to sign in; with
    a user it takes exactly the files [validateFiles] keeps, and announces
    the processing only when there is at least one. *)
Theorem processFiles_begin_guard (s : State) (files : list File) :
  (Builtin.truthy (currentUser s) = false ->
     processFiles_begin s files
     = ([], showToast s "Please sign in to upload images" ToastWarning))
  /\ (Builtin.truthy (currentUser s) = true ->
        (processFiles_begin s files).1 = (validateFiles s files).1
        /\ ((validateFiles s files).1 = [] ->
              (processFiles_begin s files).2 = (validateFiles s files).2)
        /\ ((validateFiles s files).1 <> [] ->
              (processFiles_begin s files).2
              = showToast (validateFiles s files).2
                  ("Processing " +:+ pretty (length (validateFiles s files).1)
                   +:+ " image(s)...") ToastInfo)).
Proof.
  unfold processFiles_begin. split; intros Hu; rewrite Hu; cbn [negb]; [done|].
  destruct files as [|f files]; [by repeat split|].
  destruct (validateFiles s (f :: files)) as [valid s1]. cbn [fst snd].
  by destruct valid.
Qed.

Lemma processFiles_begin_guard_witness :
  (processFiles_begin More.signedIn [Sample.png2MB; Sample.pdf]).1 = [Sample.png2MB].
Proof.
  apply (processFiles_begin_guard More.signedIn [Sample.png2MB; Sample.pdf]).
  reflexivity.
Defined.

#[local] Set Warnings "-clear-no-such-hyp".

(** ** Gallery *)

(** A text is plain when the test of its characters says so. *)
Lemma plainText_check (s : string) :
  forallb (λ c, negb (bool_decide (N_of_ascii c ∈ [34; 38; 60; 62]%N)))
    (list_ascii_of_string s) = true ->
  plainText s.
Proof.
  induction s as [|c s IH]; [done|]. cbn [list_ascii_of_string forallb plainText].
  intros [Hc Hs]%andb_prop. split; [|by apply IH].
  apply negb_true_iff in Hc. by apply bool_decide_eq_false in Hc.
Qed.

(** X13: after [addImageToGallery] the new id has a pending entry with the
    name and size of the file and neither confidence nor analysis time, and
    an element in the document; when the name of the file, the id and the
    URL have no markup in them, that element has an enabled analyze button
    and no status indicator; the entries and elements of all other ids, the
    history and the store are as they were. *)
Theorem addImageToGallery_entry (s : State) (file : File) (imageId imageUrl now : string) :
  uploadedImages_get (addImageToGallery s file imageId imageUrl now) imageId
  = Some {| img_id := imageId; img_name := file_name file; img_url := imageUrl;
            img_status := Pending; img_uploadTime := now; img_size := file_size file;
            img_confidence := None; img_analyzedAt := None |}
  /\ is_Some (getElementById (addImageToGallery s file imageId imageUrl now) imageId)
  /\ (plainText (file_name file) -> plainText imageId -> plainText imageUrl ->
      getElementById (addImageToGallery s file imageId imageUrl now) imageId
      = Some {| el_analyzing := false; el_analyzed := false;
                el_analyzeBtn := Some (mkAnalyzeBtn false false); el_status := None |})
  /\ (forall other, other <> imageId ->
        uploadedImages_get (addImageToGallery s file imageId imageUrl now) other
        = uploadedImages_get s other
        /\ getElementById (addImageToGallery s file imageId imageUrl now) other
           = getElementById s other)
  /\ analysisHistory (addImageToGallery s file imageId imageUrl now) = analysisHistory s
  /\ localStorage (addImageToGallery s file imageId imageUrl now) = localStorage s.
Proof.
  unfold uploadedImages_get, getElementById, addImageToGallery. cbn.
  split; [|split; [|split; [|split; [|done]]]].
  - rewrite decide_True by set_solver. apply lookup_insert_eq.
  - rewrite decide_True by set_solver. rewrite lookup_insert_eq. by eexists.
  - intros _ _ _. rewrite decide_True by set_solver. apply lookup_insert_eq.
  - intros other Hne. rewrite !lookup_insert_ne by done.
    split; repeat case_decide; try done; set_solver.
Qed.

Lemma addImageToGallery_entry_witness :
  getElementById Sample.onePending "img_1"
  = Some {| el_analyzing := false; el_analyzed := false;
            el_analyzeBtn := Some (mkAnalyzeBtn false false); el_status := None |}.
Proof.
  apply (addImageToGallery_entry Sample.start Sample.png2MB "img_1"
           "data:image/png;base64,iVBORw0KGgo=" "2024-05-01T10:00:00.000Z");
    apply plainText_check; reflexivity.
Defined.

(** X14: once the timeout of [removeImage] has run, the id has no entry and
    no element in the document, the other ids keep theirs, and
    [analyzeImage] on the id returns at once. *)
Theorem removeImage_timeout_gone (s : State) (imageId : string) :
  uploadedImages_get (removeImage_timeout s imageId) imageId = None
  /\ getElementById (removeImage_timeout s imageId) imageId = None
  /\ (forall other, other <> imageId ->
        uploadedImages_get (removeImage_timeout s imageId) other
        = uploadedImages_get s other
        /\ getElementById (removeImage_timeout s imageId) other = getElementById s other)
  /\ analyzeImage (removeImage_timeout s imageId) imageId
     = Returned (removeImage_timeout s imageId).
Proof.
  assert (uploadedImages_get (removeImage_timeout s imageId) imageId = None) as Hgone.
  { unfold uploadedImages_get, removeImage_timeout. cbn.
    rewrite decide_False by set_solver. done. }
  split; [done|]. split; [|split].
  - unfold getElementById, removeImage_timeout. cbn.
    rewrite decide_False by set_solver. done.
  - intros other Hne. unfold uploadedImages_get, getElementById, removeImage_timeout.
    cbn. split; repeat case_decide; try done; set_solver.
  - unfold analyzeImage. by rewrite Hgone.
Qed.

(** X15: an analysis does not notice that its image was removed meanwhile:
    when the entry is removed after the call has started, the completion of
    the call still appends a history item for it, although the id has no
    entry any more. *)
Theorem removed_entry_still_recorded (quota_ok : gmap string string -> bool)
    (s : State) (imageId : string) (st : Status) (random1 random2 : Q) (now : string) :
  img_status <$> uploadedImages_get s imageId = Some st ->
  st <> Analyzing ->
  is_Some (getElementById s imageId) ->
  exists s1 k,
    analyzeImage s imageId = Awaiting s1 k
    /\ uploadedImages_get
         (analyzeImage_resume quota_ok (removeImage_timeout s1 imageId) k Fulfilled
            random1 random2 now) imageId = None
    /\ exists item,
         analysisHistory
           (analyzeImage_resume quota_ok (removeImage_timeout s1 imageId) k Fulfilled
              random1 random2 now)
         = item :: analysisHistory s
         /\ h_status item = verdict random1.
Proof.
  intros Hst Hne Hel.
  destruct (analyzeImage_proceeds s imageId st Hst Hne Hel) as
    (s1 & k & Hcall & Hk & _ & Hobj & Helt & Hhist & _).
  exists s1, k. split; [done|]. subst imageId.
  destruct (analyzeImage_resume_fulfilled quota_ok (removeImage_timeout s1 (k_imageId k))
              k random1 random2 now) as (d & item & _ & _ & _ & Hh & His & _ & Hup);
    [done|done|].
  split.
  - unfold uploadedImages_get. rewrite Hup. cbn.
    rewrite decide_False by set_solver. done.
  - exists item. by rewrite Hh, <- Hhist.
Qed.

(** ** More on the analysis lifecycle *)

Lemma analyzeImage_guard (s : State) (imageId : string) (imageData : ImageData) :
  uploadedImages_get s imageId = Some imageData ->
  img_status imageData = Analyzing ->
  analyzeImage s imageId = Returned s.
Proof. intros Hd Hs. unfold analyzeImage. rewrite Hd. by rewrite decide_True. Qed.

(** The shape of a call that goes ahead. *)
Lemma analyzeImage_cases (s : State) (imageId : string) :
  analyzeImage s imageId = Returned s
  \/ exists imageData imageElement s1 k,
       uploadedImages_get s imageId = Some imageData
       /\ img_status imageData <> Analyzing
       /\ getElementById s imageId = Some imageElement
       /\ analyzeImage s imageId = Awaiting s1 k
       /\ k_imageId k = imageId
       /\ imageObjects s1
          = <[imageId := {| img_id := img_id imageData; img_name := img_name imageData;
                            img_url := img_url imageData; img_status := Analyzing;
                            img_uploadTime := img_uploadTime imageData;
                            img_size := img_size imageData;
                            img_confidence := img_confidence imageData;
                            img_analyzedAt := img_analyzedAt imageData |}]>
              (imageObjects s)
       /\ (exists e1, elementObjects s1 = <[imageId := e1]> (elementObjects s)
                      /\ el_status e1 = Some Analyzing /\ el_analyzing e1 = true
                      /\ (forall b, el_analyzeBtn e1 = Some b -> btn_disabled b = true))
       /\ uploadedImages s1 = uploadedImages s
       /\ gallery s1 = gallery s
       /\ analysisHistory s1 = analysisHistory s
       /\ localStorage s1 = localStorage s
       /\ toasts s1 = toasts s
       /\ statCounters s1 = statCounters s
       /\ settings s1 = settings s
       /\ historyRows s1 = historyRows s.
Proof.
  unfold analyzeImage.
  destruct (uploadedImages_get s imageId) as [d|] eqn:Hd; [|by left].
  destruct (decide (img_status d = Analyzing)) as [|Hne]; [by left|].
  destruct (getElementById s imageId) as [e|] eqn:He; [|by left].
  right. eexists d, e, _, _. do 6 (split; [done|]).
  split; [|done].
  eexists. split; [reflexivity|]. cbn. split; [done|]. split; [done|].
  intros b. destruct (el_analyzeBtn e); intros [= <-]. done.
Qed.

(** X16: invoking [analyzeImage] twice in a row on the same id is invoking
    it once: whatever the first call did, the second returns at once and
    changes nothing. *)
Theorem analyzeImage_twice (s : State) (imageId : string) :
  analyzeImage (stateOf (analyzeImage s imageId)) imageId
  = Returned (stateOf (analyzeImage s imageId)).
Proof.
  destruct (analyzeImage_cases s imageId) as
    [Hret|(d & e & s1 & k & Hd & _ & _ & Hcall & _ & Hobj & _ & Hup & _)].
  - rewrite Hret. cbn. done.
  - rewrite Hcall. cbn.
    apply uploadedImages_get_Some in Hd as [Hin _].
    eapply analyzeImage_guard.
    + unfold uploadedImages_get. rewrite Hup, decide_True by done.
      rewrite Hobj. apply lookup_insert_eq.
    + done.
Qed.

(** X17: the start of an analysis touches the entry and the element of its
    id and nothing else: the other entries and elements, the history, the
    store, the toasts, the counters and the settings are as they were, and
    the entry keeps its name, its content and its size. *)
Theorem analyzeImage_frame (s : State) (imageId : string) :
  (forall other, other <> imageId ->
     uploadedImages_get (stateOf (analyzeImage s imageId)) other
     = uploadedImages_get s other
     /\ getElementById (stateOf (analyzeImage s imageId)) other = getElementById s other)
  /\ analysisHistory (stateOf (analyzeImage s imageId)) = analysisHistory s
  /\ localStorage (stateOf (analyzeImage s imageId)) = localStorage s
  /\ toasts (stateOf (analyzeImage s imageId)) = toasts s
  /\ statCounters (stateOf (analyzeImage s imageId)) = statCounters s
  /\ settings (stateOf (analyzeImage s imageId)) = settings s
  /\ (forall imageData, uploadedImages_get s imageId = Some imageData ->
        exists imageData',
          uploadedImages_get (stateOf (analyzeImage s imageId)) imageId = Some imageData'
          /\ img_name imageData' = img_name imageData
          /\ img_url imageData' = img_url imageData
          /\ img_size imageData' = img_size imageData).
Proof.
  destruct (analyzeImage_cases s imageId) as
    [Hret|(d & e & s1 & k & Hd & _ & _ & Hcall & _ & Hobj & (e1 & Helt & _) & Hup & Hgal
           & Hh & Hl & Ht & Hc & Hs & _)].
  - rewrite Hret. cbn. repeat split; eauto.
  - rewrite Hcall. cbn. split; [|repeat (split; [done|])].
    + intros other Hne. unfold uploadedImages_get, getElementById.
      rewrite Hup, Hgal, Hobj, Helt. by rewrite !lookup_insert_ne.
    + intros d' Hd'. rewrite Hd in Hd'. injection Hd' as <-.
      apply uploadedImages_get_Some in Hd as [Hin _].
      eexists. split.
      * unfold uploadedImages_get. rewrite Hup, decide_True by done.
        rewrite Hobj. apply lookup_insert_eq.
      * done.
Qed.

(** The state after the completion of an analysis call. *)
Lemma analyzeImage_resume_Fulfilled_state (quota_ok : gmap string string -> bool)
    (s : State) (k : Suspended) (random1 random2 : Q) (now : string)
    (d : ImageData) (e : ImageElement) :
  imageObjects s !! k_imageId k = Some d ->
  elementObjects s !! k_imageId k = Some e ->
  imageObjects (analyzeImage_resume quota_ok s k Fulfilled random1 random2 now)
  = <[k_imageId k :=
        {| img_id := img_id d; img_name := img_name d; img_url := img_url d;
           img_status := verdict random1; img_uploadTime := img_uploadTime d;
           img_size := img_size d; img_confidence := Some (confidenceOf random2);
           img_analyzedAt := Some now |}]> (imageObjects s)
  /\ elementObjects (analyzeImage_resume quota_ok s k Fulfilled random1 random2 now)
     = <[k_imageId k :=
           {| el_analyzing := false; el_analyzed := true;
              el_analyzeBtn := if k_analyzeBtn k then None else el_analyzeBtn e;
              el_status := Some (verdict random1) |}]> (elementObjects s)
  /\ analysisHistory (analyzeImage_resume quota_ok s k Fulfilled random1 random2 now)
     = {| h_id := img_id d; h_name := img_name d; h_status := verdict random1;
          h_confidence := Some (confidenceOf random2); h_date := Some now;
          h_size := img_size d |} :: analysisHistory s
  /\ statCounters (analyzeImage_resume quota_ok s k Fulfilled random1 random2 now)
     = stats (analysisHistory
                (analyzeImage_resume quota_ok s k Fulfilled random1 random2 now))
  /\ historyRows (analyzeImage_resume quota_ok s k Fulfilled random1 random2 now)
     = analysisHistory (analyzeImage_resume quota_ok s k Fulfilled random1 random2 now)
  /\ toasts (analyzeImage_resume quota_ok s k Fulfilled random1 random2 now)
     = toasts s ++ [mkToast ("Analysis complete: " +:+ status_str (verdict random1)
                             +:+ " (" +:+ confidenceOf random2 +:+ "% confidence)")
                      ToastSuccess].
Proof.
  intros Hd He. unfold analyzeImage_resume. rewrite Hd, He.
  unfold updateStats, showToast, addToHistory, updateHistory, saveAnalysisHistory,
    setItem, updateImageStatus.
  assert (verdict random1 <> Pending) as Hv
    by (destruct (verdict_cases random1) as [-> | ->]; done).
  cbn. rewrite decide_False by done.
  destruct (quota_ok _); cbn; destruct (k_analyzeBtn k); done.
Qed.

Lemma analyzeImage_resume_Rejected_state (quota_ok : gmap string string -> bool)
    (s : State) (k : Suspended) (random1 random2 : Q) (now : string)
    (d : ImageData) (e : ImageElement) :
  imageObjects s !! k_imageId k = Some d ->
  elementObjects s !! k_imageId k = Some e ->
  imageObjects (analyzeImage_resume quota_ok s k Rejected random1 random2 now)
  = <[k_imageId k :=
        {| img_id := img_id d; img_name := img_name d; img_url := img_url d;
           img_status := Error; img_uploadTime := img_uploadTime d;
           img_size := img_size d; img_confidence := img_confidence d;
           img_analyzedAt := img_analyzedAt d |}]> (imageObjects s)
  /\ elementObjects (analyzeImage_resume quota_ok s k Rejected random1 random2 now)
     = <[k_imageId k :=
           {| el_analyzing := false; el_analyzed := el_analyzed e;
              el_analyzeBtn := el_analyzeBtn e; el_status := Some Error |}]>
         (elementObjects s)
  /\ analysisHistory (analyzeImage_resume quota_ok s k Rejected random1 random2 now)
     = analysisHistory s
  /\ localStorage (analyzeImage_resume quota_ok s k Rejected random1 random2 now)
     = localStorage s
  /\ statCounters (analyzeImage_resume quota_ok s k Rejected random1 random2 now)
     = stats (analysisHistory s)
  /\ toasts (analyzeImage_resume quota_ok s k Rejected random1 random2 now)
     = toasts s ++ [mkToast "Analysis failed. Please try again." ToastError].
Proof.
  intros Hd He. unfold analyzeImage_resume. rewrite Hd, He. done.
Qed.

(** X18: when the analysis call fails, the entry becomes error and keeps
    whatever confidence it had, the failure is announced, and neither the
    history nor the store changes. *)
Theorem analysis_failure (quota_ok : gmap string string -> bool)
    (s : State) (k : Suspended) (random1 random2 : Q) (now : string) :
  is_Some (imageObjects s !! k_imageId k) ->
  is_Some (elementObjects s !! k_imageId k) ->
  (exists imageData imageData',
     imageObjects s !! k_imageId k = Some imageData
     /\ imageObjects (analyzeImage_resume quota_ok s k Rejected random1 random2 now)
          !! k_imageId k = Some imageData'
     /\ img_status imageData' = Error
     /\ img_confidence imageData' = img_confidence imageData)
  /\ analysisHistory (analyzeImage_resume quota_ok s k Rejected random1 random2 now)
     = analysisHistory s
  /\ localStorage (analyzeImage_resume quota_ok s k Rejected random1 random2 now)
     = localStorage s
  /\ toasts (analyzeImage_resume quota_ok s k Rejected random1 random2 now)
     = toasts s ++ [mkToast "Analysis failed. Please try again." ToastError].
Proof.
  intros [d Hd] [e He].
  destruct (analyzeImage_resume_Rejected_state quota_ok s k random1 random2 now d e Hd He)
    as (Hobj & _ & Hh & Hl & _ & Ht).
  split; [|done]. eexists d, _. split; [done|]. rewrite Hobj.
  split; [apply lookup_insert_eq|done].
Qed.

Lemma analysis_failure_witness :
  analysisHistory
    (analyzeImage_resume Sample.roomy Sample.oneAnalyzing Sample.call1 Rejected
       (3 # 4) (1 # 2) "2024-05-01T10:00:04.000Z") = [].
Proof.
  apply (analysis_failure Sample.roomy Sample.oneAnalyzing Sample.call1 (3 # 4) (1 # 2)
           "2024-05-01T10:00:04.000Z").
  - vm_compute. eexists. reflexivity.
  - vm_compute. eexists. reflexivity.
Defined.

(** X19: after every step of the lifecycle the element of the entry shows
    the status of the entry: at the start of an analysis both are
    analyzing, and after the call has settled, either way, the status
    indicator is the new status of the entry and the class [analyzing] is
    gone. *)
Theorem badge_follows_status (quota_ok : gmap string string -> bool)
    (s : State) (imageId : string) :
  (forall s1 k, analyzeImage s imageId = Awaiting s1 k -> badgeAgrees s1 imageId)
  /\ (forall (k : Suspended) (settled : Settled) (random1 random2 : Q) (now : string),
        k_imageId k = imageId ->
        is_Some (imageObjects s !! imageId) ->
        is_Some (elementObjects s !! imageId) ->
        badgeAgrees (analyzeImage_resume quota_ok s k settled random1 random2 now) imageId
        /\ exists imageElement,
             elementObjects (analyzeImage_resume quota_ok s k settled random1 random2 now)
               !! imageId = Some imageElement
             /\ el_analyzing imageElement = false).
Proof.
  split.
  - intros s1 k Hcall.
    destruct (analyzeImage_cases s imageId) as
      [Hret|(d & e & s1' & k' & _ & _ & _ & Hcall' & _ & Hobj & (e1 & Helt & Hst & _) & _)];
      [congruence|].
    rewrite Hcall in Hcall'. injection Hcall' as <- <-.
    eexists _, e1. rewrite Hobj, Helt, !lookup_insert_eq. done.
  - intros k settled random1 random2 now <- [d Hd] [e He]. destruct settled.
    + destruct (analyzeImage_resume_Fulfilled_state quota_ok s k random1 random2 now d e
                  Hd He) as (Hobj & Helt & _).
      unfold badgeAgrees. rewrite Hobj, Helt, !lookup_insert_eq. eauto 10.
    + destruct (analyzeImage_resume_Rejected_state quota_ok s k random1 random2 now d e
                  Hd He) as (Hobj & Helt & _).
      unfold badgeAgrees. rewrite Hobj, Helt, !lookup_insert_eq. eauto 10.
Qed.

(** X20: the history item of a completed analysis is a copy of the entry:
    it has the id, the name and the size the entry had when the call
    completed, the verdict, the confidence and the time of the completion;
    the entry itself keeps its id, name, content, size and upload time. *)
Theorem history_item_is_snapshot (quota_ok : gmap string string -> bool)
    (s : State) (k : Suspended) (random1 random2 : Q) (now : string)
    (imageData : ImageData) :
  imageObjects s !! k_imageId k = Some imageData ->
  is_Some (elementObjects s !! k_imageId k) ->
  exists item imageData',
    analysisHistory (analyzeImage_resume quota_ok s k Fulfilled random1 random2 now)
    = item :: analysisHistory s
    /\ imageObjects (analyzeImage_resume quota_ok s k Fulfilled random1 random2 now)
         !! k_imageId k = Some imageData'
    /\ h_id item = img_id imageData /\ h_name item = img_name imageData
    /\ h_size item = img_size imageData
    /\ h_status item = img_status imageData'
    /\ h_confidence item = img_confidence imageData'
    /\ h_date item = Some now /\ img_analyzedAt imageData' = Some now
    /\ img_id imageData' = img_id imageData /\ img_name imageData' = img_name imageData
    /\ img_url imageData' = img_url imageData /\ img_size imageData' = img_size imageData
    /\ img_uploadTime imageData' = img_uploadTime imageData.
Proof.
  intros Hd [e He].
  destruct (analyzeImage_resume_Fulfilled_state quota_ok s k random1 random2 now
              imageData e Hd He) as (Hobj & _ & Hh & _).
  eexists _, _. split; [exact Hh|]. split; [rewrite Hobj; apply lookup_insert_eq|].
  done.
Qed.

Lemma history_item_is_snapshot_witness :
  exists item imageData',
    analysisHistory Sample.oneAuthorized = item :: analysisHistory Sample.oneAnalyzing
    /\ imageObjects Sample.oneAuthorized !! "img_1" = Some imageData'
    /\ h_id item = "img_1" /\ h_name item = "billboard.png"
    /\ h_size item = 2097152%N.
Proof.
  destruct (history_item_is_snapshot Sample.roomy Sample.oneAnalyzing Sample.call1
              (3 # 4) (1 # 2) "2024-05-01T10:00:04.000Z"
              {| img_id := "img_1"; img_name := "billboard.png";
                 img_url := "data:image/png;base64,iVBORw0KGgo=";
                 img_status := Analyzing; img_uploadTime := "2024-05-01T10:00:00.000Z";
                 img_size := 2097152; img_confidence := None; img_analyzedAt := None |})
    as (item & d' & Hh & Hobj & Hid & Hname & Hsize & _).
  - vm_compute. reflexivity.
  - vm_compute. eexists. reflexivity.
  - exists item, d'. auto.
Defined.

Lemma stats_verdictsOnly (history : list HistoryItem) :
  verdictsOnly history ->
  (authorizedCount (stats history) + unauthorizedCount (stats history)
   = total (stats history))%nat.
Proof.
  unfold stats. cbn. rewrite !filter_status_length.
  induction 1 as [|item rest Hitem _ IH]; [done|]. cbn [countStatus length].
  destruct Hitem as [-> | ->]; repeat case_decide; try done; lia.
Qed.

(** X21: a history of verdicts stays one: if every item of the history is
    authorized or unauthorized, this is so after an analysis call has
    settled, either way; the counters are then those of the new history,
    and the authorized and unauthorized counts add up to the total. *)
Theorem history_of_verdicts (quota_ok : gmap string string -> bool)
    (s : State) (k : Suspended) (settled : Settled) (random1 random2 : Q) (now : string) :
  is_Some (imageObjects s !! k_imageId k) ->
  is_Some (elementObjects s !! k_imageId k) ->
  verdictsOnly (analysisHistory s) ->
  verdictsOnly (analysisHistory
                  (analyzeImage_resume quota_ok s k settled random1 random2 now))
  /\ statCounters (analyzeImage_resume quota_ok s k settled random1 random2 now)
     = stats (analysisHistory
                (analyzeImage_resume quota_ok s k settled random1 random2 now))
  /\ (authorizedCount
        (statCounters (analyzeImage_resume quota_ok s k settled random1 random2 now))
      + unauthorizedCount
          (statCounters (analyzeImage_resume quota_ok s k settled random1 random2 now))
      = total
          (statCounters (analyzeImage_resume quota_ok s k settled random1 random2 now)))%nat.
Proof.
  intros [d Hd] [e He] Hinv.
  assert (verdictsOnly (analysisHistory
            (analyzeImage_resume quota_ok s k settled random1 random2 now))
          /\ statCounters (analyzeImage_resume quota_ok s k settled random1 random2 now)
             = stats (analysisHistory
                        (analyzeImage_resume quota_ok s k settled random1 random2 now)))
    as [Hinv' Hc].
  { destruct settled.
    - destruct (analyzeImage_resume_Fulfilled_state quota_ok s k random1 random2 now d e
                  Hd He) as (_ & _ & Hh & Hc & _).
      split; [|done]. rewrite Hh. constructor; [|done]. cbn. apply verdict_cases.
    - destruct (analyzeImage_resume_Rejected_state quota_ok s k random1 random2 now d e
                  Hd He) as (_ & _ & Hh & _ & Hc & _).
      rewrite Hh. split; [done|]. by rewrite Hc. }
  split; [done|]. split; [done|]. rewrite Hc. by apply stats_verdictsOnly.
Qed.

Lemma history_of_verdicts_witness :
  verdictsOnly (analysisHistory Sample.oneAuthorized).
Proof.
  apply (history_of_verdicts Sample.roomy Sample.oneAnalyzing Sample.call1 Fulfilled
           (3 # 4) (1 # 2) "2024-05-01T10:00:04.000Z").
  - vm_compute. eexists. reflexivity.
  - vm_compute. eexists. reflexivity.
  - constructor.
Defined.

(** ** More on search and export *)

Lemma isWhiteSpace_lowerChar c : JS.isWhiteSpace (JS.lowerChar c) = JS.isWhiteSpace c.
Proof. destruct c as [[] [] [] [] [] [] [] []]; reflexivity. Qed.

Lemma whitespaceOnly_toLowerCase s : whitespaceOnly (JS.toLowerCase s) <-> whitespaceOnly s.
Proof.
  induction s as [|c s IH]; [done|]. cbn [JS.toLowerCase whitespaceOnly].
  by rewrite <- !isWhiteSpace_blank, isWhiteSpace_lowerChar, IH.
Qed.

Lemma lowerChar_idempotent c : JS.lowerChar (JS.lowerChar c) = JS.lowerChar c.
Proof. destruct c as [[] [] [] [] [] [] [] []]; reflexivity. Qed.

Lemma toLowerCase_idempotent s : JS.toLowerCase (JS.toLowerCase s) = JS.toLowerCase s.
Proof.
  induction s as [|c s IH]; [done|]. cbn [JS.toLowerCase].
  by rewrite lowerChar_idempotent, IH.
Qed.

(** X22: the search ignores the case of the term: two terms with the same
    lower-case form give the same table, and so do a term and its
    lower-case form. *)
Theorem filterHistory_ignores_case (s : State) (term1 term2 : string) :
  JS.toLowerCase term1 = JS.toLowerCase term2 ->
  filterHistory s term1 = filterHistory s term2
  /\ filterHistory s (JS.toLowerCase term1) = filterHistory s term1.
Proof.
  assert (forall t1 t2, JS.toLowerCase t1 = JS.toLowerCase t2 ->
            filterHistory s t1 = filterHistory s t2) as Hsame.
  { intros t1 t2 Heq. unfold filterHistory.
    assert (whitespaceOnly t1 <-> whitespaceOnly t2) as Hw
      by (by rewrite <- (whitespaceOnly_toLowerCase t1), Heq, whitespaceOnly_toLowerCase).
    destruct (decide (JS.trim t1 = EmptyString)) as [H1|H1];
      destruct (decide (JS.trim t2 = EmptyString)) as [H2|H2];
      rewrite trim_empty_iff in H1, H2; try tauto.
    unfold matchesTerm. by rewrite Heq. }
  intros Heq. split; [by apply Hsame|].
  apply Hsame. apply toLowerCase_idempotent.
Qed.

Lemma filterHistory_ignores_case_witness :
  filterHistory Sample.withHistory3 "ROAD" = filterHistory Sample.withHistory3 "road".
Proof.
  apply (filterHistory_ignores_case Sample.withHistory3 "ROAD" "road").
  reflexivity.
Defined.

(** X23: a search changes the table only: the rows shown are rows of the
    history in the order of the history, the history, the store and the
    counters are as they were, and clearing the term afterwards shows the
    whole history again. *)
Theorem filterHistory_view_only (s : State) (searchTerm : string) :
  historyRows (filterHistory s searchTerm) `sublist_of` analysisHistory s
  /\ filterHistory s searchTerm = set_historyRows (historyRows (filterHistory s searchTerm)) s
  /\ historyRows (filterHistory (filterHistory s searchTerm) EmptyString) = analysisHistory s.
Proof.
  unfold filterHistory.
  destruct (decide (JS.trim searchTerm = EmptyString)); cbn.
  - split; [done|]. done.
  - split; [apply sublist_filter|]. done.
Qed.

Lemma beforeT_date (date time : string) :
  noT date -> beforeT (date +:+ "T" +:+ time) = date.
Proof.
  induction date as [|c date IH]; [done|]. intros [Hc Hrest].
  rewrite append_cons. cbn [beforeT]. rewrite Hc. by rewrite IH.
Qed.

(** X24: [exportToCSV] offers a file exactly when the history is not empty;
    with an empty history it only warns [No data to export]; in both cases
    nothing but the toasts changes; and at a time [<date>T<time>] the file
    is named [billboard_analysis_<date>.csv]. *)
Theorem exportToCSV_outcome (s : State) (date time : string) :
  noT date ->
  ((exportToCSV s (date +:+ "T" +:+ time)).1 = None <-> analysisHistory s = [])
  /\ (analysisHistory s = [] ->
        (exportToCSV s (date +:+ "T" +:+ time)).2
        = showToast s "No data to export" ToastWarning)
  /\ (forall d, (exportToCSV s (date +:+ "T" +:+ time)).1 = Some d ->
        download_name d = "billboard_analysis_" +:+ date +:+ ".csv"
        /\ (exportToCSV s (date +:+ "T" +:+ time)).2
           = showToast s "History exported successfully!" ToastSuccess).
Proof.
  intros Hdate. unfold exportToCSV.
  destruct (analysisHistory s) as [|item rest]; cbn [fst snd].
  - split; [done|]. split; [done|]. intros d Hd. done.
  - split; [split; done|]. split; [done|].
    intros d [= <-]. cbn [download_name]. by rewrite beforeT_date.
Qed.

Lemma exportToCSV_outcome_witness :
  (exportToCSV Sample.start ("2024-05-02" +:+ "T" +:+ "08:00:00.000Z")).2
  = showToast Sample.start "No data to export" ToastWarning.
Proof.
  apply (exportToCSV_outcome Sample.start "2024-05-02" "08:00:00.000Z").
  - vm_compute. repeat split.
  - reflexivity.
Defined.

(** ** Utilities *)

Lemma substring_prefix (n : nat) (s : string) :
  (n <= String.length s)%nat ->
  exists rest, s = String.substring 0 n s +:+ rest
               /\ String.length (String.substring 0 n s) = n.
Proof.
  revert n. induction s as [|c s IH]; intros n Hn.
  - destruct n; [|cbn in Hn; lia]. by exists EmptyString.
  - destruct n as [|n].
    + exists (String c s). done.
    + cbn in Hn. destruct (IH n) as (rest & Hs & Hl); [lia|].
      exists rest. cbn [String.substring]. rewrite append_cons.
      split; [by rewrite <- Hs | cbn; by rewrite Hl].
Qed.

(** X25: [truncateText] returns a text as it is when it fits in
    [maxLength] characters; a longer text is cut to its first
    [maxLength - 3] characters followed by three dots, so for a [maxLength]
    of at least 3 the result never has more than [maxLength] characters;
    for a smaller [maxLength] a longer text gives the three dots alone. *)
Theorem truncateText_fits (text : string) (maxLength : Z) :
  (Z.of_nat (String.length text) <= maxLength -> truncateText text maxLength = text)
  /\ (3 <= maxLength ->
        Z.of_nat (String.length (truncateText text maxLength)) <= maxLength
        /\ (maxLength < Z.of_nat (String.length text) ->
              exists kept rest,
                text = kept +:+ rest
                /\ Z.of_nat (String.length kept) = maxLength - 3
                /\ truncateText text maxLength = kept +:+ "..."))
  /\ (maxLength < 3 -> maxLength < Z.of_nat (String.length text) ->
        truncateText text maxLength = "...").
Proof.
  unfold truncateText, Builtin.substr0.
  destruct (Z.of_nat (String.length text) <=? maxLength) eqn:Hfit.
  - apply Z.leb_le in Hfit. split; [done|]. split; [|lia]. intros _. split; [done|lia].
  - apply Z.leb_gt in Hfit. split; [lia|]. split.
    + intros H3.
      destruct (substring_prefix (Z.to_nat (maxLength - 3)) text) as (rest & Ht & Hl);
        [lia|].
      split.
      * rewrite length_append, Hl. cbn. lia.
      * intros _. eexists _, rest. split; [exact Ht|]. split; [lia|done].
    + intros Hsmall _. replace (Z.to_nat (maxLength - 3)) with 0%nat by lia.
      by destruct text.
Qed.

Lemma truncateText_fits_witness :
  Z.of_nat (String.length (truncateText "Ring road east, northbound.png" 25)) <= 25.
Proof.
  apply (truncateText_fits "Ring road east, northbound.png" 25).
  lia.
Defined.

Lemma inject_Z_minus (a b : Z) : (inject_Z (a - b) == inject_Z a - inject_Z b)%Q.
Proof. unfold Qeq. cbn. lia. Qed.

Lemma min1_range (q : Q) : (0 <= q)%Q -> (0 <= Builtin.min1 q)%Q /\ (Builtin.min1 q <= 1)%Q.
Proof.
  intros Hq. unfold Builtin.min1. destruct (Qlt_le_dec q 1); split; lra.
Qed.

Lemma easeOutQuart_range (t : Q) :
  (0 <= t)%Q -> (t <= 1)%Q -> (0 <= easeOutQuart t)%Q /\ (easeOutQuart t <= 1)%Q.
Proof.
  intros H0 H1. unfold easeOutQuart. cbv zeta.
  assert (0 <= (t - 1) * (t - 1))%Q as Hsq by nra.
  assert ((t - 1) * (t - 1) <= 1)%Q as Hsq1 by nra.
  split; nra.
Qed.

Lemma elapsed_progress (elapsed : Z) :
  0 <= elapsed -> (0 <= inject_Z elapsed / 1000)%Q.
Proof.
  intros H. apply Qle_shift_div_l; [reflexivity|].
  rewrite Qmult_0_l. change 0%Q with (inject_Z 0). by rewrite <- Zle_Qle.
Qed.

(** X26: every frame of [animateNumber] shows a number between [from] and
    [to]; the first frame shows [from]; a frame drawn 1000 milliseconds or
    more after the start shows exactly [to] and is the last one, an earlier
    frame asks for another. *)
Theorem animateNumber_frames (from to elapsed : Z) :
  0 <= elapsed ->
  Z.min from to <= animateNumber_frame from to elapsed <= Z.max from to
  /\ animateNumber_frame from to 0 = from
  /\ (1000 <= elapsed ->
        animateNumber_frame from to elapsed = to
        /\ animateNumber_continues elapsed = false)
  /\ (elapsed < 1000 -> animateNumber_continues elapsed = true).
Proof.
  intros Hel.
  pose proof (elapsed_progress elapsed Hel) as Hp.
  destruct (min1_range _ Hp) as [Hm0 Hm1].
  destruct (easeOutQuart_range _ Hm0 Hm1) as [He0 He1].
  split; [|split; [|split]].
  - unfold animateNumber_frame. cbv zeta.
    set (e := easeOutQuart (Builtin.min1 (inject_Z elapsed / 1000))) in *.
    rewrite inject_Z_minus.
    assert (inject_Z (Z.min from to)
            <= inject_Z from + (inject_Z to - inject_Z from) * e)%Q as Hlo.
    { destruct (Z.le_ge_cases from to) as [Hft|Hft].
      - rewrite Z.min_l by done. rewrite Zle_Qle in Hft. nra.
      - rewrite Z.min_r by done. rewrite Zle_Qle in Hft. nra. }
    assert (inject_Z from + (inject_Z to - inject_Z from) * e
            <= inject_Z (Z.max from to))%Q as Hhi.
    { destruct (Z.le_ge_cases from to) as [Hft|Hft].
      - rewrite Z.max_r by done. rewrite Zle_Qle in Hft. nra.
      - rewrite Z.max_l by done. rewrite Zle_Qle in Hft. nra. }
    split.
    + rewrite <- (Qfloor_Z (Z.min from to)). by apply Qfloor_resp_le.
    + rewrite Zle_Qle. eapply Qle_trans; [apply Qfloor_le|]. done.
  - unfold animateNumber_frame. cbv zeta.
    assert (inject_Z from + inject_Z (to - from)
                            * easeOutQuart (Builtin.min1 (inject_Z 0 / 1000))
            == inject_Z from)%Q as ->.
    { vm_compute (easeOutQuart _). ring. }
    apply Qfloor_Z.
  - intros Hlate.
    assert (1 <= inject_Z elapsed / 1000)%Q as Hge.
    { apply Qle_shift_div_l; [reflexivity|]. rewrite Qmult_1_l.
      change 1000%Q with (inject_Z 1000). by rewrite <- Zle_Qle. }
    assert (Builtin.min1 (inject_Z elapsed / 1000) = 1%Q) as Hone.
    { unfold Builtin.min1. destruct (Qlt_le_dec _ 1); [lra|done]. }
    split.
    + unfold animateNumber_frame. cbv zeta. rewrite Hone.
      assert (inject_Z from + inject_Z (to - from) * easeOutQuart 1 == inject_Z to)%Q
        as ->.
      { rewrite inject_Z_minus. vm_compute (easeOutQuart _). ring. }
      apply Qfloor_Z.
    + unfold animateNumber_continues. rewrite Hone. done.
  - intros Hearly. unfold animateNumber_continues, Builtin.min1.
    assert (inject_Z elapsed / 1000 < 1)%Q as Hlt.
    { apply Qlt_shift_div_r; [reflexivity|]. rewrite Qmult_1_l.
      change 1000%Q with (inject_Z 1000). by rewrite <- Zlt_Qlt. }
    destruct (Qlt_le_dec (inject_Z elapsed / 1000) 1) as [H|H]; [|lra].
    destruct (Qlt_le_dec (inject_Z elapsed / 1000) 1); [done|lra].
Qed.

Lemma animateNumber_frames_witness :
  animateNumber_frame 0 12 1000 = 12 /\ animateNumber_continues 1000 = false.
Proof.
  apply (animateNumber_frames 0 12 1000); lia.
Defined.

(** ** Whole runs *)

Lemma addImageToGallery_entry_lookup (s : State) (file : File)
    (imageId imageUrl now : string) :
  uploadedImages_get (addImageToGallery s file imageId imageUrl now) imageId
  = Some {| img_id := imageId; img_name := file_name file; img_url := imageUrl;
            img_status := Pending; img_uploadTime := now; img_size := file_size file;
            img_confidence := None; img_analyzedAt := None |}
  /\ getElementById (addImageToGallery s file imageId imageUrl now) imageId
     = Some {| el_analyzing := false; el_analyzed := false;
               el_analyzeBtn := Some (mkAnalyzeBtn false false); el_status := None |}.
Proof.
  unfold uploadedImages_get, getElementById, addImageToGallery. cbn.
  rewrite !decide_True by set_solver. by rewrite !lookup_insert_eq.
Qed.

(** X27: a file that has just been put in the gallery can be analysed, and
    the analysis ends in the history under the id, the name and the size of
    the file: [analyzeImage] on the new id goes ahead, and the completion of
    its call puts exactly that item in front of the history. *)
Theorem upload_then_analysis (quota_ok : gmap string string -> bool) (s : State)
    (file : File) (imageId imageUrl uploaded : string) (random1 random2 : Q)
    (now : string) :
  exists s1 k,
    analyzeImage (addImageToGallery s file imageId imageUrl uploaded) imageId
    = Awaiting s1 k
    /\ analysisHistory (analyzeImage_resume quota_ok s1 k Fulfilled random1 random2 now)
       = {| h_id := imageId; h_name := file_name file; h_status := verdict random1;
            h_confidence := Some (confidenceOf random2); h_date := Some now;
            h_size := file_size file |} :: analysisHistory s.
Proof.
  destruct (addImageToGallery_entry_lookup s file imageId imageUrl uploaded)
    as [Hget Helt].
  destruct (analyzeImage_cases (addImageToGallery s file imageId imageUrl uploaded) imageId)
    as [Hret|(d & e & s1 & k & Hd & _ & _ & Hcall & Hk & Hobj & (e1 & Hel1 & _) & _ & _
              & Hh & _)].
  - exfalso. unfold analyzeImage in Hret. rewrite Hget, Helt in Hret.
    rewrite decide_False in Hret by done. done.
  - exists s1, k. split; [done|]. rewrite Hget in Hd. injection Hd as <-.
    subst imageId.
    edestruct (analyzeImage_resume_Fulfilled_state quota_ok s1 k random1 random2 now)
      as (_ & _ & Hh' & _).
    + rewrite Hobj. apply lookup_insert_eq.
    + rewrite Hel1. apply lookup_insert_eq.
    + rewrite Hh', Hh. done.
Qed.

Lemma filter_accepts_again (s s' : State) (files : list File) :
  maxSize s' = maxSize s ->
  filter (λ f, accepts s' f = true) (filter (λ f, accepts s f = true) files)
  = filter (λ f, accepts s f = true) files.
Proof.
  intros Hm. induction files as [|f files IH]; [done|].
  rewrite filter_cons. destruct (decide (accepts s f = true)) as [Ha|Ha]; [|done].
  rewrite filter_cons. rewrite decide_True; [by rewrite IH|].
  unfold accepts in *. by rewrite Hm.
Qed.

Lemma omap_rejection_accepted (s s' : State) (files : list File) :
  maxSize s' = maxSize s ->
  omap (rejection s') (filter (λ f, accepts s f = true) files) = [].
Proof.
  intros Hm. induction files as [|f files IH]; [done|].
  rewrite filter_cons. destruct (decide (accepts s f = true)) as [Ha|Ha]; [|done].
  cbn [omap list_omap]. fold (omap (rejection s') (filter (λ f, accepts s f = true) files)).
  rewrite IH. unfold accepts, rejection in *. rewrite Hm.
  destruct (JS.arrayIncludes allowedTypes (file_type f)); cbn in *; [|done].
  by destruct (Z.of_N (file_size f) >? maxSize s).
Qed.

(** X28: files that [validateFiles] has kept are kept again when they are
    validated once more under the same settings, with no toast. *)
Theorem validateFiles_idempotent (s : State) (files : list File) :
  validateFiles (validateFiles s files).2 (validateFiles s files).1
  = ((validateFiles s files).1, (validateFiles s files).2).
Proof.
  rewrite (validateFiles_spec s files). cbn [fst snd].
  rewrite validateFiles_spec.
  rewrite filter_accepts_again, omap_rejection_accepted by done.
  rewrite app_nil_r. done.
Qed.

(** X29: raising the size limit never loses a file: every file kept under
    a limit is kept under any limit that is at least as large. *)
Theorem validateFiles_monotone (s1 s2 : State) (files : list File) (f : File) :
  maxFileSize (settings s1) <= maxFileSize (settings s2) ->
  f ∈ (validateFiles s1 files).1 -> f ∈ (validateFiles s2 files).1.
Proof.
  intros Hle. rewrite !validateFiles_spec. cbn [fst].
  rewrite !list_elem_of_filter. intros [Ha Hin]. split; [|done].
  unfold accepts, maxSize in *. apply andb_true_iff in Ha as [Hty Hsz].
  rewrite Hty. cbn. apply negb_true_iff in Hsz. apply negb_true_iff.
  rewrite Z.gtb_ltb in *. apply Z.ltb_ge in Hsz. apply Z.ltb_ge. lia.
Qed.

Lemma validateFiles_monotone_witness :
  Sample.atLimit ∈ (validateFiles More.dark [Sample.atLimit; Sample.overLimit]).1.
Proof.
  apply (validateFiles_monotone Sample.start More.dark
           [Sample.atLimit; Sample.overLimit] Sample.atLimit).
  - vm_compute. discriminate.
  - vm_compute. apply list_elem_of_here.
Defined.

(** X30: records that do not parse never stop the start of the
    application: when none of the three stored records parses, [init] gives
    the state of the constructor, with no user, the default settings and an
    empty history; the user record is removed from the store and the two
    other records stay in it. *)
Theorem init_with_corrupt_store (JSON_parse : string -> option JVal)
    (store : gmap string string) :
  corruptRecord JSON_parse store "currentUser" ->
  corruptRecord JSON_parse store "billboardAI_settings" ->
  corruptRecord JSON_parse store "billboardAI_history" ->
  init JSON_parse store = Some (initialState (delete "currentUser" store)).
Proof.
  unfold corruptRecord. intros Hu Hs Hh. unfold init.
  assert (loadUserData JSON_parse (initialState store)
          = initialState (delete "currentUser" store)) as ->.
  { unfold loadUserData. cbn.
    destruct (store !! "currentUser") as [text|] eqn:Hget.
    - destruct Hu as [Hne Hp]. rewrite decide_False by done. by rewrite Hp.
    - by rewrite delete_id. }
  assert (loadSettings JSON_parse (initialState (delete "currentUser" store))
          = initialState (delete "currentUser" store)) as ->.
  { unfold loadSettings. cbn. rewrite lookup_delete_ne by done.
    destruct (store !! "billboardAI_settings") as [text|]; [|done].
    destruct Hs as [Hne Hp]. rewrite decide_False by done. by rewrite Hp. }
  unfold loadAnalysisHistory. cbn. rewrite lookup_delete_ne by done.
  destruct (store !! "billboardAI_history") as [text|]; [|done].
  destruct Hh as [Hne Hp]. rewrite decide_False by done. by rewrite Hp.
Qed.

Lemma init_with_corrupt_store_witness :
  init Json.parse More.allCorrupt = Some (initialState (delete "currentUser" More.allCorrupt)).
Proof.
  apply (init_with_corrupt_store Json.parse More.allCorrupt).
  - vm_compute. split; [discriminate | reflexivity].
  - vm_compute. split; [discriminate | reflexivity].
  - vm_compute. split; [discriminate | reflexivity].
Defined.

Lemma removed_entry_still_recorded_witness :
  exists s1 k,
    analyzeImage Sample.onePending "img_1" = Awaiting s1 k
    /\ uploadedImages_get
         (analyzeImage_resume Sample.roomy (removeImage_timeout s1 "img_1") k Fulfilled
            (3 # 4) (1 # 2) "2024-05-01T10:00:04.000Z") "img_1" = None
    /\ exists item,
         analysisHistory
           (analyzeImage_resume Sample.roomy (removeImage_timeout s1 "img_1") k Fulfilled
              (3 # 4) (1 # 2) "2024-05-01T10:00:04.000Z")
         = item :: analysisHistory Sample.onePending
         /\ h_status item = verdict (3 # 4).
Proof.
  apply (removed_entry_still_recorded Sample.roomy Sample.onePending "img_1" Pending
           (3 # 4) (1 # 2) "2024-05-01T10:00:04.000Z").
  - vm_compute. reflexivity.
  - discriminate.
  - vm_compute. eexists. reflexivity.
Defined.
